(** * gogeta: the etcd watcher (etcdwatcher.go)

    A shallow embedding of the registrars of [etcdwatcher.go] and of the
    key-path decoders they rely on, followed by the properties of the
    registry synchronizer that the specification states about them.

    Conventions of the embedding.
    - Go strings are [string]; [regexp] works on their bytes.
    - [map[string]*T] is [gmap string T]; a missing key reads as Go's [nil].
      No pointer is stored under two keys by this file, so entries are
      held by value.
    - A Go map field may be [nil]: it is an [option (gmap _ _)], [None]
      being the nil map (reads and [delete] are fine, a write panics).
    - A run-time panic (index out of range, nil pointer dereference, write
      to a nil map) is an explicit outcome, [Panicked], carrying the state
      reached when it was raised.
    - glog's output is a list of lines carried in the state.
    - The store is outside the program: the client is a function from
      the arguments of [Get] to its answer, fixed while one event is
      handled.  The goroutines, channels and sleeps of [loadAndWatch]
      and [watch] are not part of the embedding; what [watch] does with
      one response is. *)

From Stdlib Require Import String Ascii ZArith.
From stdpp Require Import gmap strings list.

Local Open Scope string_scope.
Local Open Scope list_scope.
Local Open Scope Z_scope.

(** ** Go's [strings] and [regexp], as far as the watcher uses them *)

Module GoStrings.

(** [strings.Split(s, sep)] for a separator of one byte (the watcher
    only splits on ["/"]): the pieces between the separators, in
    order; never an empty slice. *)
Fixpoint Split (s : string) (sep : ascii) : list string :=
  match s with
  | EmptyString => [EmptyString]
  | String c s' =>
      if Ascii.eqb c sep then EmptyString :: Split s' sep
      else match Split s' sep with
           | x :: xs => String c x :: xs
           | [] => [String c EmptyString]
           end
  end.

(** [s] without its prefix [p], when it has that prefix. *)
Fixpoint trimPrefix (p s : string) : option string :=
  match p, s with
  | EmptyString, _ => Some s
  | String a p', String b s' => if Ascii.eqb a b then trimPrefix p' s' else None
  | String _ _, EmptyString => None
  end.

(** The part of [s] that was consumed to reach its suffix [rest]. *)
Definition consumed (s rest : string) : string :=
  substring 0 (String.length s - String.length rest) s.

End GoStrings.

Module Regexp.
Import GoStrings.

(** The fragment of RE2 syntax that the watcher's patterns are written
    in.  A pattern is built by concatenating a configured prefix with
    a fixed tail; the prefix is taken literally ([Lit]), which is what
    Go does for a prefix without metacharacters, such as ["/domains"]. *)
Inductive regex : Type :=
| Lit (s : string)            (* the bytes of [s] *)
| Dot                         (* [.]: any byte but a newline *)
| Cat (r1 r2 : regex)         (* [r1 r2] *)
| Star (r : regex)            (* [r*], greedy *)
| Plus (r : regex)            (* [r+], greedy *)
| Grp (i : nat) (r : regex).  (* [(r)], the [i]-th capturing group *)

(** The text of a pattern. *)
Fixpoint pattern (r : regex) : string :=
  match r with
  | Lit s => s
  | Dot => "."
  | Cat r1 r2 => pattern r1 +:+ pattern r2
  | Star r' => pattern r' +:+ "*"
  | Plus r' => pattern r' +:+ "+"
  | Grp _ r' => "(" +:+ pattern r' +:+ ")"
  end.

Definition captures := gmap nat string.

(** What is left to match: the rest of the input and the groups
    captured so far go to the continuation. *)
Definition cont : Type := string -> captures -> option captures.

(** Greedy repetition of [body]: one more iteration is tried before
    stopping.  An iteration has to consume input, so the length of the
    input bounds their number. *)
Fixpoint iterate (body : string -> captures -> cont -> option captures) (k : cont)
    (fuel : nat) (s : string) (caps : captures) : option captures :=
  match fuel with
  | O => k s caps
  | S fuel' =>
      match body s caps
              (fun s' caps' =>
                 if (String.length s' <? String.length s)%nat
                 then iterate body k fuel' s' caps' else None) with
      | Some c => Some c
      | None => k s caps
      end
  end.

(** Backtracking matcher with Go's leftmost-first preference. *)
Fixpoint rmatch (r : regex) (s : string) (caps : captures) (k : cont)
    : option captures :=
  match r with
  | Lit l =>
      match trimPrefix l s with
      | Some s' => k s' caps
      | None => None
      end
  | Dot =>
      match s with
      | String c s' => if Ascii.eqb c "010"%char then None else k s' caps
      | EmptyString => None
      end
  | Cat r1 r2 => rmatch r1 s caps (fun s' caps' => rmatch r2 s' caps' k)
  | Star r' => iterate (rmatch r') k (String.length s) s caps
  | Plus r' =>
      rmatch r' s caps
        (fun s' caps' => iterate (rmatch r') k (String.length s') s' caps')
  | Grp i r' =>
      rmatch r' s caps (fun s' caps' => k s' (<[i := consumed s s']> caps'))
  end.

(** The match that starts at the leftmost possible position. *)
Fixpoint search (r : regex) (s : string) : option captures :=
  match rmatch r s ∅ (fun s' caps => Some (<[0%nat := consumed s s']> caps)) with
  | Some c => Some c
  | None =>
      match s with
      | String _ s' => search r s'
      | EmptyString => None
      end
  end.

(** Number of capturing groups of a pattern. *)
Fixpoint NumSubexp (r : regex) : nat :=
  match r with
  | Lit _ | Dot => 0
  | Cat r1 r2 => Nat.max (NumSubexp r1) (NumSubexp r2)
  | Star r' | Plus r' => NumSubexp r'
  | Grp i r' => Nat.max i (NumSubexp r')
  end.

(** [r.MatchString(s)]. *)
Definition MatchString (r : regex) (s : string) : bool :=
  match search r s with Some _ => true | None => false end.

(** [r.FindStringSubmatch(s)]: the whole match followed by the groups
    (a group that did not take part is [""]); the nil slice, here
    [[]], when there is no match. *)
Definition FindStringSubmatch (r : regex) (s : string) : list string :=
  match search r s with
  | Some caps => (fun i => default "" (caps !! i)) <$> seq 0 (S (NumSubexp r))
  | None => []
  end.

End Regexp.

Import GoStrings Regexp.

(** ** The etcd client, as the watcher sees it *)

(** [etcd.Node]: a key, its value, and the child nodes of a directory. *)
#[warnings="-register-all"]
Inductive Node : Type :=
  mkNode { Key : string; Value : string; Nodes : list Node }.

(** [etcd.Response]: the action that produced the node, and the node
    (Go's [response.Node], here [RespNode]). *)
Record Response : Type := mkResponse { Action : string; RespNode : Node }.

(** [client.Get(key, sort, recursive)]: [None] stands for [err != nil].
    The store is outside the program; a client is any such function. *)
Definition Client : Type := string -> bool -> bool -> option Response.

(** ** The entities *)

(** [Config]: only the two subtree roots matter here. *)
Record Config : Type := mkConfig { domainPrefix : string; servicePrefix : string }.

(** [Domain].  Its declaration is not in etcdwatcher.go; the fields are
    the ones the watcher reads and writes: [typ], [value] and the map
    [config] ([nil] in a fresh [&Domain{}]). *)
Record Domain : Type :=
  mkDomain { typ : string; value : string; config : option (gmap string string) }.

#[global] Instance Domain_eq_dec : EqDecision Domain.
Proof. solve_decision. Defined.

(** [&Domain{}]. *)
Definition newDomain : Domain := {| typ := ""; value := ""; config := None |}.

(** Modelled from the spec: [Domain.equals], which etcdwatcher.go calls
    and does not define.  "By value, not identity, comparing kind and
    target; a missing current Domain counts as different." *)
Definition Domain_equals (d : Domain) (other : option Domain) : bool :=
  match other with
  | Some o => String.eqb (typ d) (typ o) && String.eqb (value d) (value o)
  | None => false
  end.

(** [location]: [Host] and [Port], the two fields the watcher copies. *)
Record Location : Type := mkLocation { Host : string; Port : Z }.

#[global] Instance Location_eq_dec : EqDecision Location.
Proof. solve_decision. Defined.

(** [&location{}]. *)
Definition newLocation : Location := {| Host := ""; Port := 0 |}.

(** [Status]; the back pointer [status.service] is left out, nothing in
    this file reads it. *)
Record Status : Type := mkStatus { alive : string; current : string; expected : string }.

#[global] Instance Status_eq_dec : EqDecision Status.
Proof. solve_decision. Defined.

(** [&Status{}]. *)
Definition newStatus : Status := {| alive := ""; current := ""; expected := "" |}.

(** The lines the registrars write through glog. *)
Inductive glogLine : Type :=
| RegisteredDomain (domainName typ value : string)
    (* Infof("Registered domain %s with (%s) %s") *)
| RemovingService (serviceName : string)
    (* Infof("Removing service %s") *)
| RegisteringService (serviceName host : string) (port : Z)
    (* Infof("Registering service %s with location : http://%s:%d/") *)
| RegisteringServiceWithoutLocation (serviceName : string)
    (* Infof("Registering service %s without location") *)
| UnableToGetInformation (serviceName : string).
    (* Errorf("Unable to get information for service %s from etcd") *)

#[global] Instance glogLine_eq_dec : EqDecision glogLine.
Proof. solve_decision. Defined.

(** Run-time panics the watcher can raise. *)
Inductive panic : Type :=
| IndexOutOfRange        (* s[i] past the end of s, the nil slice included *)
| NilPointerDereference  (* p.f with p == nil *)
| NilMapAssignment.      (* m[k] = v with m == nil *)

Section Watcher.

(** [ServiceConfig] and the two uses of [json.Unmarshal] belong to code
    outside etcdwatcher.go: they are parameters.  A decoder returns
    [None] for [err != nil]; the watcher decodes into a fresh value and
    looks at it only when [err == nil]. *)
Context {ServiceConfig : Type} `{!EqDecision ServiceConfig}.
Variable newServiceConfig : ServiceConfig.                        (* &ServiceConfig{} *)
Variable unmarshalServiceConfig : string -> option ServiceConfig.
Variable unmarshalLocation : string -> option Location.

(** [Service]: the fields the watcher sets.  Go's [service.config] is
    [sconfig] here. *)
Record Service : Type := mkService {
  index : string;
  nodeKey : string;
  name : string;
  location : Location;
  sconfig : ServiceConfig;
  domain : string;
  status : option Status
}.

#[global] Instance Service_eq_dec : EqDecision Service.
Proof. solve_decision. Defined.

(** Modelled from the spec: [Service.equals], called on the instance
    currently stored ([nil] when there is none).  "Absence counts as
    different; comparison covers all fields including endpoint,
    domain, settings and status." *)
Definition Service_equals (actual : option Service) (s : Service) : bool :=
  match actual with
  | Some a => bool_decide (a = s)
  | None => false
  end.

(** Modelled from the spec: [ServiceCluster] with [Get] and [Add],
    which etcdwatcher.go calls and does not define.  "Mapping from
    instance index to Service; get(index) returns the instance or a
    not-found indicator; put(instance) inserts or replaces by index." *)
Record ServiceCluster : Type := mkCluster { instances : gmap string Service }.

(** [&ServiceCluster{}]. *)
Definition newServiceCluster : ServiceCluster := {| instances := ∅ |}.

Definition Get (cl : ServiceCluster) (idx : string) : option Service :=
  instances cl !! idx.

Definition Add (cl : ServiceCluster) (s : Service) : ServiceCluster :=
  {| instances := <[index s := s]> (instances cl) |}.

(** [watcher].  Go's [w.config] is [conf] here; [glog] is the output of
    the logger so far, oldest line first. *)
Record watcher : Type := mkWatcher {
  client : Client;
  conf : Config;
  domains : gmap string Domain;
  services : gmap string ServiceCluster;
  glog : list glogLine
}.

Definition setDomains (f : gmap string Domain -> gmap string Domain) (w : watcher) : watcher :=
  {| client := client w; conf := conf w; domains := f (domains w);
     services := services w; glog := glog w |}.

Definition setServices (f : gmap string ServiceCluster -> gmap string ServiceCluster)
    (w : watcher) : watcher :=
  {| client := client w; conf := conf w; domains := domains w;
     services := f (services w); glog := glog w |}.

Definition addLog (l : glogLine) (w : watcher) : watcher :=
  {| client := client w; conf := conf w; domains := domains w;
     services := services w; glog := glog w ++ [l] |}.

(** *** Methods of the watcher: state and panics *)

Inductive result (A : Type) : Type :=
| Ok (a : A) (w : watcher)
| Panicked (p : panic) (w : watcher).
Arguments Ok {A} a w.
Arguments Panicked {A} p w.

(** The state a run ends in, normally or not. *)
Definition finalState {A} (r : result A) : watcher :=
  match r with Ok _ w => w | Panicked _ w => w end.

Definition M (A : Type) : Type := watcher -> result A.

Definition ret {A} (a : A) : M A := fun w => Ok a w.

Definition bind {A B} (m : M A) (f : A -> M B) : M B :=
  fun w => match m w with
           | Ok a w' => f a w'
           | Panicked p w' => Panicked p w'
           end.

Definition this : M watcher := fun w => Ok w w.
Definition update (f : watcher -> watcher) : M unit := fun w => Ok tt (f w).
Definition raise {A} (p : panic) : M A := fun w => Panicked p w.

(** [s[i]]. *)
Definition at_ {A} (s : list A) (i : nat) : M A :=
  match s !! i with Some x => ret x | None => raise IndexOutOfRange end.

(** [p.f]: the value behind a pointer read from a map. *)
Definition deref {A} (p : option A) : M A :=
  match p with Some x => ret x | None => raise NilPointerDereference end.


Notation "'let!' x ':=' c1 'in' c2" := (bind c1 (fun x => c2))
  (at level 10, x pattern, c1 at level 100, c2 at level 200).
Notation "c1 ;; c2" := (bind c1 (fun _ => c2))
  (at level 100, c2 at level 200, right associativity).

(** [glog.Infof] and [glog.Errorf]. *)
Definition glogf (l : glogLine) : M unit := update (addLog l).

(** *** The patterns, compiled from the configured prefixes *)

Definition slash : ascii := "/"%char.

(** The pattern of [getDomainForNode]. *)
Definition reDomain (p : string) : regex :=
  Cat (Lit p) (Cat (Lit "/") (Grp 1 (Star Dot))).

(** The pattern of [isDomainConfiguration]. *)
Definition reIsDomainConfiguration (p : string) : regex :=
  Cat (Lit p) (Cat (Lit "/") (Cat (Star Dot) (Cat (Lit "/config") (Star Dot)))).

(** The pattern of [getDomainConfiguration]. *)
Definition reGetDomainConfiguration (p : string) : regex :=
  Cat (Lit p) (Cat (Lit "/") (Cat (Star Dot) (Cat (Lit "/config/") (Grp 1 (Plus Dot))))).

(** The pattern of [removeDomainConfiguration]. *)
Definition reRemoveDomainConfiguration (p : string) : regex :=
  Cat (Lit p)
    (Cat (Lit "/") (Cat (Grp 1 (Star Dot)) (Cat (Lit "/config/") (Grp 2 (Plus Dot))))).

(** The pattern of [getEnvForNode] and [getEnvIndexForNode]. *)
Definition reEnv (p : string) : regex :=
  Cat (Lit p)
    (Cat (Lit "/") (Cat (Grp 1 (Star Dot)) (Star (Grp 2 (Cat (Lit "/") (Star Dot)))))).

(** *** Key-path decoders *)

Definition isDomainConfiguration (node : Node) : M bool :=
  let! w := this in
  let r := reIsDomainConfiguration (domainPrefix (conf w)) in
  ret (MatchString r (Key node)).

Definition getDomainConfiguration (node : Node) : M (string * string) :=
  let! w := this in
  let r := reGetDomainConfiguration (domainPrefix (conf w)) in
  let! g := at_ (FindStringSubmatch r (Key node)) 1 in
  let! k := at_ (Split g slash) 0 in
  ret (k, Value node).

Definition getDomainForNode (node : Node) : M string :=
  let! w := this in
  let r := reDomain (domainPrefix (conf w)) in
  let! g := at_ (FindStringSubmatch r (Key node)) 1 in
  at_ (Split g slash) 0.

Definition getEnvForNode (node : Node) : M string :=
  let! w := this in
  let r := reEnv (servicePrefix (conf w)) in
  let! g := at_ (FindStringSubmatch r (Key node)) 1 in
  at_ (Split g slash) 0.

Definition getEnvIndexForNode (node : Node) : M string :=
  let! w := this in
  let r := reEnv (servicePrefix (conf w)) in
  let! g := at_ (FindStringSubmatch r (Key node)) 1 in
  at_ (Split g slash) 1.

(** *** What the decoders compute, without the state

    The decoders read only [w.config]; these functions give their
    result, [None] where the decoder indexes past the end of a slice. *)

Definition submatch (r : regex) (key : string) (group piece : nat) : option string :=
  match FindStringSubmatch r key !! group with
  | Some g => Split g slash !! piece
  | None => None
  end.

Definition domainOfKey (c : Config) (key : string) : option string :=
  submatch (reDomain (domainPrefix c)) key 1 0.

Definition configurationOfKey (c : Config) (key : string) : option string :=
  submatch (reGetDomainConfiguration (domainPrefix c)) key 1 0.

Definition envOfKey (c : Config) (key : string) : option string :=
  submatch (reEnv (servicePrefix c)) key 1 0.

Definition envIndexOfKey (c : Config) (key : string) : option string :=
  submatch (reEnv (servicePrefix c)) key 1 1.

(** *** Removals *)

Definition RemoveDomain (key : string) : M unit :=
  update (setDomains (delete key)).

Definition RemoveEnv (serviceName : string) : M unit :=
  update (setServices (delete serviceName)).

(** [delete(w.domains[m[1]].config, strings.Split(m[2], "/")[0])] under
    the guard [r.MatchString(node.Key)].  The first argument reads
    [.config] through the pointer found in the map; [delete] on a nil
    map does nothing. *)
Definition removeDomainConfiguration (node : Node) : M unit :=
  let! w := this in
  let r := reRemoveDomainConfiguration (domainPrefix (conf w)) in
  if MatchString r (Key node) then
    let! g1 := at_ (FindStringSubmatch r (Key node)) 1 in
    let! d := deref (domains w !! g1) in
    let! g2 := at_ (FindStringSubmatch r (Key node)) 2 in
    let! k := at_ (Split g2 slash) 0 in
    update (setDomains
              <[g1 := {| typ := typ d; value := value d; config := delete k <$> config d |}]>)
  else ret tt.

(** *** The domain registrar *)

Definition setTyp (v : string) (d : Domain) : Domain :=
  {| typ := v; value := value d; config := config d |}.
Definition setValue (v : string) (d : Domain) : Domain :=
  {| typ := typ d; value := v; config := config d |}.
Definition setConfig (c : option (gmap string string)) (d : Domain) : Domain :=
  {| typ := typ d; value := value d; config := c |}.

(** [w.domains[w.getDomainForNode(node)].config[key] = value]: the
    operand [w.domains[..].config] is read through the pointer first,
    then the entry is written. *)
Definition putDomainConfiguration (node : Node) (key val : string) : M unit :=
  let! n := getDomainForNode node in
  let! w := this in
  let! d := deref (domains w !! n) in
  match config d with
  | Some m => update (setDomains <[n := setConfig (Some (<[key := val]> m)) d]>)
  | None => raise NilMapAssignment
  end.

(** One turn of the loop over [response.Node.Nodes] in [registerDomain]. *)
Definition registerDomainNode (domainKey : string) (domain : Domain) (node : Node)
    : M Domain :=
  let domain :=
    if String.eqb (Key node) (domainKey +:+ "/type") then setTyp (Value node) domain
    else if String.eqb (Key node) (domainKey +:+ "/value") then setValue (Value node) domain
    else domain in
  let! c := isDomainConfiguration node in
  if c : bool then
    let! kv := getDomainConfiguration node in
    putDomainConfiguration node (fst kv) (snd kv) ;;
    ret domain
  else ret domain.

Fixpoint registerDomainNodes (domainKey : string) (domain : Domain) (nodes : list Node)
    : M Domain :=
  match nodes with
  | [] => ret domain
  | node :: rest =>
      let! domain := registerDomainNode domainKey domain node in
      registerDomainNodes domainKey domain rest
  end.

Definition registerDomain (node : Node) (action : string) : M unit :=
  let! domainName := getDomainForNode node in
  let! w := this in
  let domainKey := domainPrefix (conf w) +:+ "/" +:+ domainName in
  let response := client w domainKey true false in
  if String.eqb action "delete" || String.eqb action "expire" then
    let! c := isDomainConfiguration node in
    if c : bool then removeDomainConfiguration node else RemoveDomain domainName
  else
    match response with
    | Some response =>
        let! domain := registerDomainNodes domainKey newDomain (Nodes (RespNode response)) in
        let! w := this in
        let actualDomain := domains w !! domainName in
        if negb (String.eqb (typ domain) "") && negb (String.eqb (value domain) "")
           && negb (Domain_equals domain actualDomain)
        then
          update (setDomains <[domainName := domain]>) ;;
          glogf (RegisteredDomain domainName (typ domain) (value domain))
        else ret tt
    | None => ret tt
    end.

(** *** The service registrar *)

Definition setLocation (l : Location) (s : Service) : Service :=
  {| index := index s; nodeKey := nodeKey s; name := name s; location := l;
     sconfig := sconfig s; domain := domain s; status := status s |}.
Definition setSconfig (c : ServiceConfig) (s : Service) : Service :=
  {| index := index s; nodeKey := nodeKey s; name := name s; location := location s;
     sconfig := c; domain := domain s; status := status s |}.
Definition setDomain (d : string) (s : Service) : Service :=
  {| index := index s; nodeKey := nodeKey s; name := name s; location := location s;
     sconfig := sconfig s; domain := d; status := status s |}.
Definition setStatus (st : option Status) (s : Service) : Service :=
  {| index := index s; nodeKey := nodeKey s; name := name s; location := location s;
     sconfig := sconfig s; domain := domain s; status := st |}.

(** The inner loop over the [config] directory of an instance. *)
Definition serviceConfigNode (configKey : string) (service : Service) (subNode : Node)
    : Service :=
  if String.eqb (Key subNode) (configKey +:+ "/gogeta") then
    match unmarshalServiceConfig (Value subNode) with
    | Some serviceConfig => setSconfig serviceConfig service
    | None => service
    end
  else service.

(** The inner loop over the [status] directory of an instance;
    [service.status] has just been set to a fresh [Status]. *)
Definition serviceStatusNode (statusKey : string) (service : Service) (subNode : Node)
    : Service :=
  if String.eqb (Key subNode) (statusKey +:+ "/alive") then
    setStatus ((fun st => {| alive := Value subNode; current := current st;
                             expected := expected st |}) <$> status service) service
  else if String.eqb (Key subNode) (statusKey +:+ "/current") then
    setStatus ((fun st => {| alive := alive st; current := Value subNode;
                             expected := expected st |}) <$> status service) service
  else if String.eqb (Key subNode) (statusKey +:+ "/expected") then
    setStatus ((fun st => {| alive := alive st; current := current st;
                             expected := Value subNode |}) <$> status service) service
  else service.

(** One turn of the loop over [response.Node.Nodes] in [registerService]. *)
Definition serviceNode (serviceKey : string) (service : Service) (node : Node) : Service :=
  let statusKey := serviceKey +:+ "/status" in
  let configKey := serviceKey +:+ "/config" in
  if String.eqb (Key node) (serviceKey +:+ "/location") then
    match unmarshalLocation (Value node) with
    | Some l => setLocation {| Host := Host l; Port := Port l |} service
    | None => service
    end
  else if String.eqb (Key node) configKey then
    foldl (serviceConfigNode configKey) service (Nodes node)
  else if String.eqb (Key node) (serviceKey +:+ "/domain") then
    setDomain (Value node) service
  else if String.eqb (Key node) statusKey then
    foldl (serviceStatusNode statusKey) (setStatus (Some newStatus) service) (Nodes node)
  else service.

(** The [Service] built for one instance from the read of its key. *)
Definition buildService (serviceName serviceIndex serviceKey : string) (response : Response)
    : Service :=
  foldl (serviceNode serviceKey)
    {| index := serviceIndex; nodeKey := serviceKey; name := serviceName;
       location := newLocation; sconfig := newServiceConfig; domain := "";
       status := None |}
    (Nodes (RespNode response)).

(** The loop over [serviceNode.Node.Nodes]; the [return] of the delete
    branch leaves the loop, and the registrar with it. *)
Fixpoint registerServiceNodes (serviceName action : string) (indexNodes : list Node)
    : M unit :=
  match indexNodes with
  | [] => ret tt
  | indexNode :: rest =>
      let! serviceIndex := getEnvIndexForNode indexNode in
      let! w := this in
      let serviceKey :=
        servicePrefix (conf w) +:+ "/" +:+ serviceName +:+ "/" +:+ serviceIndex in
      match client w serviceKey true true with
      | Some response =>
          (match services w !! serviceName with
           | None => update (setServices <[serviceName := newServiceCluster]>)
           | Some _ => ret tt
           end) ;;
          if String.eqb action "delete" then
            glogf (RemovingService serviceName) ;;
            RemoveEnv serviceName
          else
            let service := buildService serviceName serviceIndex serviceKey response in
            let! w := this in
            let! cl := deref (services w !! serviceName) in
            let actualEnv := Get cl (index service) in
            (if negb (Service_equals actualEnv service) then
               update (setServices <[serviceName := Add cl service]>) ;;
               if negb (String.eqb (Host (location service)) "")
                  && negb (Z.eqb (Port (location service)) 0)
               then glogf (RegisteringService serviceName (Host (location service))
                             (Port (location service)))
               else glogf (RegisteringServiceWithoutLocation serviceName)
             else ret tt) ;;
            registerServiceNodes serviceName action rest
      | None => registerServiceNodes serviceName action rest
      end
  end.

Definition registerService (node : Node) (action : string) : M unit :=
  let! serviceName := getEnvForNode node in
  let! w := this in
  match client w (servicePrefix (conf w) +:+ "/" +:+ serviceName) true true with
  | Some serviceNode =>
      registerServiceNodes serviceName action (Nodes (RespNode serviceNode))
  | None => glogf (UnableToGetInformation serviceName)
  end.

(** *** Dispatch *)

Fixpoint forEach (nodes : list Node) (f : Node -> M unit) : M unit :=
  match nodes with
  | [] => ret tt
  | n :: rest => f n ;; forEach rest f
  end.

(** [loadPrefix]: every child of the root goes to the registrar, with
    the action the read reported. *)
Definition loadPrefix (etcDir : string) (registerFunc : Node -> string -> M unit) : M unit :=
  let! w := this in
  match client w etcDir true true with
  | Some response =>
      forEach (Nodes (RespNode response)) (fun n => registerFunc n (Action response))
  | None => ret tt
  end.

(** What [watch] does with one response taken from the update channel
    ([None] is the nil response). *)
Definition watchResponse (response : option Response)
    (registerFunc : Node -> string -> M unit) : M unit :=
  match response with
  | Some response => registerFunc (RespNode response) (Action response)
  | None => ret tt
  end.

(** *** A sequence of change events

    The store changes between two events.  An event carries the content
    of the store at the time it is handled, as the client that reads
    it, and the response the watch delivered; handling it is what
    [watch] does with the response. *)
Record Event : Type := mkEvent { store : Client; delivered : Response }.

Definition setClient (c : Client) (w : watcher) : watcher :=
  {| client := c; conf := conf w; domains := domains w;
     services := services w; glog := glog w |}.

Definition handleEvent (registerFunc : Node -> string -> M unit) (ev : Event) : M unit :=
  update (setClient (store ev)) ;;
  watchResponse (Some (delivered ev)) registerFunc.

Fixpoint handleEvents (registerFunc : Node -> string -> M unit) (evs : list Event)
    : M unit :=
  match evs with
  | [] => ret tt
  | ev :: rest => handleEvent registerFunc ev ;; handleEvents registerFunc rest
  end.

End Watcher.

Arguments Ok {ServiceConfig A} a w.
Arguments Panicked {ServiceConfig A} p w.
Arguments Service : clear implicits.
Arguments ServiceCluster : clear implicits.
Arguments watcher : clear implicits.
Arguments result : clear implicits.
Arguments M : clear implicits.

(** ** Sample data *)

Module Sample.

(** The double quote. *)
Definition q : string := String "034"%char EmptyString.

Fixpoint digits (s : string) (acc : Z) : option (Z * string) :=
  match s with
  | String c s' =>
      let n := nat_of_ascii c in
      if ((48 <=? n) && (n <=? 57))%nat then digits s' (10 * acc + Z.of_nat (n - 48))
      else Some (acc, s)
  | EmptyString => Some (acc, s)
  end.

Fixpoint untilQuote (s : string) : option (string * string) :=
  match s with
  | String c s' =>
      if Ascii.eqb c "034"%char then Some (EmptyString, s')
      else match untilQuote s' with
           | Some (a, rest) => Some (String c a, rest)
           | None => None
           end
  | EmptyString => None
  end.

(** A decoder that accepts exactly the objects written
    [{"Host":"<host>","Port":<digits>}], enough to run the registrars
    on concrete stores. *)
Definition decodeLocation (s : string) : option Location :=
  match trimPrefix ("{" +:+ q +:+ "Host" +:+ q +:+ ":" +:+ q) s with
  | Some s1 =>
      match untilQuote s1 with
      | Some (h, s2) =>
          match trimPrefix ("," +:+ q +:+ "Port" +:+ q +:+ ":") s2 with
          | Some (String c s3) =>
              match digits (String c s3) 0 with
              | Some (p, "}") => Some {| Host := h; Port := p |}
              | _ => None
              end
          | _ => None
          end
      | None => None
      end
  | None => None
  end.

(** The service configuration kept as the raw text of the blob. *)
Definition decodeConfig (s : string) : option string :=
  if String.eqb s "" then None else Some s.

Definition leaf (k v : string) : Node := mkNode k v [].
Definition dir (k : string) (ns : list Node) : Node := mkNode k "" ns.

Definition cfg : Config := {| domainPrefix := "/domains"; servicePrefix := "/services" |}.

(** The JSON text of a location. *)
Definition json (host port : string) : string :=
  "{" +:+ q +:+ "Host" +:+ q +:+ ":" +:+ q +:+ host +:+ q +:+ ","
  +:+ q +:+ "Port" +:+ q +:+ ":" +:+ port +:+ "}".

(** A store given as a tree of nodes, and the client that reads it: the
    node under the key, with its whole subtree for a recursive read and
    with its children alone otherwise. *)
Fixpoint find (key : string) (n : Node) : option Node :=
  match n with
  | mkNode k v ns =>
      if String.eqb k key then Some n
      else (fix findIn (l : list Node) : option Node :=
              match l with
              | [] => None
              | m :: r =>
                  match find key m with
                  | Some x => Some x
                  | None => findIn r
                  end
              end) ns
  end.

Definition shallow (n : Node) : Node :=
  mkNode (Key n) (Value n) ((fun m => mkNode (Key m) (Value m) []) <$> Nodes n).

Definition etcd (root : Node) : Client := fun key sort recursive =>
  match find key root with
  | Some n => Some (mkResponse "get" (if recursive then n else shallow n))
  | None => None
  end.

(** The registrars with [ServiceConfig] and the decoders fixed. *)
Definition registerDomainS : Node -> string -> M string unit := registerDomain.
Definition registerServiceS : Node -> string -> M string unit :=
  registerService "" decodeConfig decodeLocation.
Definition buildServiceS : string -> string -> string -> Response -> Service string :=
  buildService "" decodeConfig decodeLocation.

(** Domain [api] with kind and target only. *)
Definition apiTree : Node :=
  dir "/domains/api"
    [leaf "/domains/api/type" "service"; leaf "/domains/api/value" "orders"].

(** Domain [api] with a settings entry as well. *)
Definition apiTreeWithSetting : Node :=
  dir "/domains/api"
    [dir "/domains/api/config" [leaf "/domains/api/config/timeout" "30"];
     leaf "/domains/api/type" "service"; leaf "/domains/api/value" "orders"].

Definition instance1 : Node :=
  dir "/services/orders/1"
    [leaf "/services/orders/1/location" (json "10.0.0.5" "8080");
     dir "/services/orders/1/status" [leaf "/services/orders/1/status/alive" "true"]].

Definition instance2 : Node :=
  dir "/services/orders/2" [leaf "/services/orders/2/location" (json "h2" "9000")].

(** An instance whose location is not JSON. *)
Definition instance3 : Node :=
  dir "/services/orders/3"
    [leaf "/services/orders/3/domain" "api";
     leaf "/services/orders/3/location" "not json"].

Definition storeOf (domainNodes serviceNodes : list Node) : Node :=
  dir "/" [dir "/domains" domainNodes; dir "/services" serviceNodes].

Definition store1 : Client := etcd (storeOf [apiTree] [dir "/services/orders" [instance1]]).
Definition store12 : Client :=
  etcd (storeOf [apiTree] [dir "/services/orders" [instance1; instance2]]).
Definition storeSetting : Client := etcd (storeOf [apiTreeWithSetting] []).
Definition storeEmpty : Client := etcd (storeOf [] []).

(** A watcher with empty registries. *)
Definition fresh (c : Client) : watcher string := mkWatcher c cfg ∅ ∅ [].

Definition apiDomain : Domain := {| typ := "service"; value := "orders"; config := None |}.

(** Domain [api] registered, as the initial load leaves it. *)
Definition apiRegistered (c : Client) : watcher string :=
  mkWatcher c cfg {["api" := apiDomain]} ∅ [RegisteredDomain "api" "service" "orders"].

Definition service1 : Service string :=
  {| index := "1"; nodeKey := "/services/orders/1"; name := "orders";
     location := {| Host := "10.0.0.5"; Port := 8080 |}; sconfig := ""; domain := "";
     status := Some {| alive := "true"; current := ""; expected := "" |} |}.

Definition service2 : Service string :=
  {| index := "2"; nodeKey := "/services/orders/2"; name := "orders";
     location := {| Host := "h2"; Port := 9000 |}; sconfig := ""; domain := "";
     status := None |}.

(** Domain [api] registered with two settings, the map having been
    made by the caller of [NewEtcdWatcher]. *)
Definition apiWithSettings (c : Client) : watcher string :=
  mkWatcher c cfg
    {["api" := {| typ := "service"; value := "orders";
                  config := Some {["timeout" := "30"; "retries" := "2"]} |}]} ∅ [].

(** Cluster [orders] registered with instance 1. *)
Definition ordersRegistered (c : Client) : watcher string :=
  mkWatcher c cfg ∅ {["orders" := {| instances := {["1" := service1]} |}]}
    [RegisteringService "orders" "10.0.0.5" 8080].

(** Two events: a value set under instance 2 while the store holds the
    instances 1 and 2; then the expiry of instance 2, the store holding
    instance 1 alone. *)
Definition eventSet2 : Event :=
  mkEvent store12 (mkResponse "set" (leaf "/services/orders/2/location" (json "h2" "9000"))).
Definition eventExpire2 : Event :=
  mkEvent store1 (mkResponse "expire" (dir "/services/orders/2" [])).

(** The state after the two events, from empty registries. *)
Definition afterBoth : watcher string :=
  finalState (handleEvents registerServiceS [eventSet2; eventExpire2] (fresh storeEmpty)).

(** The read of the key of an instance. *)
Definition readOf (n : Node) : Response := mkResponse "get" n.

(** An instance with a configuration blob. *)
Definition instance4 : Node :=
  dir "/services/orders/4"
    [dir "/services/orders/4/config" [leaf "/services/orders/4/config/gogeta" "blob"]].


End Sample.

(** ** Properties of the registrars *)

Section Properties.

Context {ServiceConfig : Type} `{!EqDecision ServiceConfig}.
Variable newServiceConfig : ServiceConfig.
Variable unmarshalServiceConfig : string -> option ServiceConfig.
Variable unmarshalLocation : string -> option Location.

Local Abbreviation registerService' :=
  (registerService newServiceConfig unmarshalServiceConfig unmarshalLocation).
Local Abbreviation registerServiceNodes' :=
  (registerServiceNodes newServiceConfig unmarshalServiceConfig unmarshalLocation).
Local Abbreviation buildService' :=
  (buildService newServiceConfig unmarshalServiceConfig unmarshalLocation).

Implicit Types (w : watcher ServiceConfig) (node : Node).

(** The value stored under settings key [k] of a domain, if any. *)
Definition setting (e : Domain) (k : string) : option string :=
  match config e with Some m => m !! k | None => None end.

(** [m'] is [m] except, at most, for the settings entry [k] of domain [d]. *)
Definition sameButSetting (d k : string) (m m' : gmap string Domain) : Prop :=
  (forall d', d' <> d -> m' !! d' = m !! d') /\
  match m !! d, m' !! d with
  | Some e, Some e' =>
      typ e' = typ e /\ value e' = value e /\
      forall k', k' <> k -> setting e' k' = setting e k'
  | None, None => True
  | _, _ => False
  end.

(** The settings entry that [removeDomainConfiguration] aims at: the
    domain and the settings key it reads from the key of the node. *)
Definition removalTarget (c : Config) (key : string) : option (string * string) :=
  let r := reRemoveDomainConfiguration (domainPrefix c) in
  if MatchString r key then
    match FindStringSubmatch r key !! 1%nat, submatch r key 2 0 with
    | Some d, Some k => Some (d, k)
    | _, _ => None
    end
  else None.

(** The line logged when [s] is registered under [serviceName]. *)
Definition registeringLine (serviceName : string) (s : Service ServiceConfig) : glogLine :=
  if negb (String.eqb (Host (location s)) "") && negb (Z.eqb (Port (location s)) 0)
  then RegisteringService serviceName (Host (location s)) (Port (location s))
  else RegisteringServiceWithoutLocation serviceName.

(** The state after one turn of the loop of [registerService], for an
    action other than delete, when the read of the instance's key
    succeeded and [s] was built from it. *)
Definition afterTurn (serviceName : string) (s : Service ServiceConfig) w
    : watcher ServiceConfig :=
  match services w !! serviceName with
  | None =>
      addLog (registeringLine serviceName s)
        (setServices <[serviceName := Add newServiceCluster s]> w)
  | Some cl =>
      if Service_equals (Get cl (index s)) s then w
      else addLog (registeringLine serviceName s)
             (setServices <[serviceName := Add cl s]> w)
  end.

(** The key of instance [i] of service [serviceName]. *)
Definition serviceKeyOf (c : Config) (serviceName i : string) : string :=
  servicePrefix c +:+ "/" +:+ serviceName +:+ "/" +:+ i.

(** The lines that record a publication. *)
Definition isPublish (l : glogLine) : bool :=
  match l with
  | RegisteredDomain _ _ _ | RegisteringService _ _ _
  | RegisteringServiceWithoutLocation _ => true
  | RemovingService _ | UnableToGetInformation _ => false
  end.

(** The instance indices in the store's subtree of a service: the
    indices of the children of its root key. *)
Definition storeIndices (c : Client) (cfg : Config) (serviceName : string) : list string :=
  match c (servicePrefix cfg +:+ "/" +:+ serviceName) true true with
  | Some response => omap (fun n => envIndexOfKey cfg (Key n)) (Nodes (RespNode response))
  | None => []
  end.

(** The instance indices of the cluster registered under a name. *)
Definition clusterIndices w (serviceName : string) : gset string :=
  match services w !! serviceName with
  | Some cl => dom (instances cl)
  | None => ∅
  end.

(** The cluster holds exactly the indices of the store's subtree. *)
Definition mirrorsStore w (serviceName : string) : Prop :=
  forall i, i ∈ clusterIndices w serviceName <->
            i ∈ storeIndices (client w) (conf w) serviceName.

(** The cluster of [serviceName] holds [s] at its index. *)
Definition holds w (serviceName : string) (s : Service ServiceConfig) : Prop :=
  exists cl, services w !! serviceName = Some cl /\ instances cl !! index s = Some s.

(** What the registrar builds for instance [i], if the read of its key
    succeeds. *)
Definition built w (serviceName i : string) : option (Service ServiceConfig) :=
  buildService' serviceName i (serviceKeyOf (conf w) serviceName i)
    <$> client w (serviceKeyOf (conf w) serviceName i) true true.

(** The state after the delete branch has been taken. *)
Definition removed (serviceName : string) w : watcher ServiceConfig :=
  addLog (RemovingService serviceName) (setServices (delete serviceName) w).

(** What one child of a domain's root asks of the settings, as the loop
    of [registerDomain] reads its key: nothing, a write of [v] under
    settings key [k] of domain [d], or a key that passes
    [isDomainConfiguration] and on which a decoder then indexes past the
    end of its match. *)
Inductive settingWrite : Type :=
| NoWrite
| BadKey
| Write (d k v : string).

Definition nodeWrite (c : Config) (node : Node) : settingWrite :=
  if MatchString (reIsDomainConfiguration (domainPrefix c)) (Key node) then
    match configurationOfKey c (Key node), domainOfKey c (Key node) with
    | Some k, Some d => Write d k (Value node)
    | _, _ => BadKey
    end
  else NoWrite.

(** The kind and target that the loop reads from one child. *)
Definition scanNode (domainKey : string) (domain : Domain) (node : Node) : Domain :=
  if String.eqb (Key node) (domainKey +:+ "/type") then setTyp (Value node) domain
  else if String.eqb (Key node) (domainKey +:+ "/value") then setValue (Value node) domain
  else domain.

(** The Domain rebuilt from the children of the domain's root. *)
Definition rebuiltDomain (domainKey : string) (nodes : list Node) : Domain :=
  foldl (scanNode domainKey) newDomain nodes.

(** The effect of a write on the registry, when it goes through. *)
Definition putSetting (m : gmap string Domain) (x : settingWrite) : gmap string Domain :=
  match x with
  | Write d k v => alter (fun e => setConfig (<[k := v]> <$> config e) e) d m
  | NoWrite | BadKey => m
  end.

(** The effect of a list of writes on the settings of domain [d]. *)
Definition settingsAfter (xs : list settingWrite) (d : string) (c : gmap string string)
    : gmap string string :=
  foldl (fun c x =>
           match x with
           | Write d' k v => if decide (d' = d) then <[k := v]> c else c
           | NoWrite | BadKey => c
           end) c xs.

(** Kind and target of a Domain. *)
Definition kindOf (e : Domain) : string * string := (typ e, value e).

(** Kind and target are both non-empty. *)
Definition fullyDefined (e : Domain) : Prop := typ e <> "" /\ value e <> "".

(** *** Keys, lines and segments *)

Definition newline : ascii := "010"%char.


(** What is left of [s] from its first newline on. *)
Fixpoint afterLine (s : string) : string :=
  match s with
  | String c s' => if Ascii.eqb c newline then s else afterLine s'
  | EmptyString => EmptyString
  end.





(** The instance stored under index [i] of the cluster of a service,
    if any. *)
Definition instanceAt w (serviceName i : string) : option (Service ServiceConfig) :=
  match services w !! serviceName with
  | Some cl => instances cl !! i
  | None => None
  end.

(** One leaf of the [status] directory, on the Status being filled. *)
Definition statusLeaf (statusKey : string) (st : Status) (subNode : Node) : Status :=
  if String.eqb (Key subNode) (statusKey +:+ "/alive") then
    {| alive := Value subNode; current := current st; expected := expected st |}
  else if String.eqb (Key subNode) (statusKey +:+ "/current") then
    {| alive := alive st; current := Value subNode; expected := expected st |}
  else if String.eqb (Key subNode) (statusKey +:+ "/expected") then
    {| alive := alive st; current := current st; expected := Value subNode |}
  else st.

(** *** The patterns are the ones of the source *)

Lemma reDomain_pattern p : pattern (reDomain p) = p +:+ "/(.*)".
Proof. reflexivity. Qed.

Lemma reIsDomainConfiguration_pattern p :
  pattern (reIsDomainConfiguration p) = p +:+ "/.*/config.*".
Proof. reflexivity. Qed.

Lemma reGetDomainConfiguration_pattern p :
  pattern (reGetDomainConfiguration p) = p +:+ "/.*/config/(.+)".
Proof. reflexivity. Qed.

Lemma reRemoveDomainConfiguration_pattern p :
  pattern (reRemoveDomainConfiguration p) = p +:+ "/(.*)/config/(.+)".
Proof. reflexivity. Qed.

Lemma reEnv_pattern p : pattern (reEnv p) = p +:+ "/(.*)(/.*)*".
Proof. reflexivity. Qed.

(** *** Running the decoders *)

Lemma submatch_run (r : regex) (key : string) (piece : nat) w :
  (bind (at_ (FindStringSubmatch r key) 1) (fun g => at_ (Split g slash) piece)) w =
  match submatch r key 1 piece with
  | Some x => Ok x w
  | None => Panicked IndexOutOfRange w
  end.
Proof.
  unfold submatch, bind, at_.
  destruct (FindStringSubmatch r key !! 1%nat) as [g|]; simpl; [|reflexivity].
  destruct (Split g slash !! piece); reflexivity.
Qed.

Lemma getDomainForNode_run node w :
  getDomainForNode node w =
  match domainOfKey (conf w) (Key node) with
  | Some n => Ok n w
  | None => Panicked IndexOutOfRange w
  end.
Proof. apply submatch_run. Qed.

Lemma getEnvForNode_run node w :
  getEnvForNode node w =
  match envOfKey (conf w) (Key node) with
  | Some n => Ok n w
  | None => Panicked IndexOutOfRange w
  end.
Proof. apply submatch_run. Qed.

Lemma getEnvIndexForNode_run node w :
  getEnvIndexForNode node w =
  match envIndexOfKey (conf w) (Key node) with
  | Some n => Ok n w
  | None => Panicked IndexOutOfRange w
  end.
Proof. apply submatch_run. Qed.

Lemma getDomainConfiguration_run node w :
  getDomainConfiguration node w =
  match configurationOfKey (conf w) (Key node) with
  | Some k => Ok (k, Value node) w
  | None => Panicked IndexOutOfRange w
  end.
Proof.
  unfold getDomainConfiguration, configurationOfKey, submatch, bind, this, at_, ret, raise.
  destruct (FindStringSubmatch _ _ !! 1%nat) as [g|]; simpl; [|reflexivity].
  destruct (Split g slash !! 0%nat); reflexivity.
Qed.

Lemma isDomainConfiguration_run node w :
  isDomainConfiguration node w =
  Ok (MatchString (reIsDomainConfiguration (domainPrefix (conf w))) (Key node)) w.
Proof. reflexivity. Qed.

(** A decoder that returns leaves the state as it found it. *)
Lemma getDomainForNode_Ok node w n w' :
  getDomainForNode node w = Ok n w' -> w' = w /\ domainOfKey (conf w) (Key node) = Some n.
Proof.
  rewrite getDomainForNode_run. destruct (domainOfKey _ _); intros H; inversion H; auto.
Qed.

Lemma getEnvForNode_Ok node w n w' :
  getEnvForNode node w = Ok n w' -> w' = w /\ envOfKey (conf w) (Key node) = Some n.
Proof.
  rewrite getEnvForNode_run. destruct (envOfKey _ _); intros H; inversion H; auto.
Qed.

(** *** Frame of the removals *)

Lemma removeDomainConfiguration_cases node w :
  removeDomainConfiguration node w = Ok tt w \/
  (exists p, removeDomainConfiguration node w = Panicked p w) \/
  (exists d k e, domains w !! d = Some e /\
     removeDomainConfiguration node w =
     Ok tt (setDomains <[d := setConfig (delete k <$> config e) e]> w)).
Proof.
  unfold removeDomainConfiguration, bind, this, at_, deref, ret, raise, update. simpl.
  destruct (MatchString _ _); [|by left].
  destruct (FindStringSubmatch _ _ !! 1%nat) as [g1|]; simpl; [|right; left; eauto].
  destruct (domains w !! g1) as [e|] eqn:He; simpl; [|right; left; eauto].
  destruct (FindStringSubmatch _ _ !! 2%nat) as [g2|]; simpl; [|right; left; eauto].
  destruct (Split g2 slash !! 0%nat) as [k|]; simpl; [|right; left; eauto].
  right; right. exists g1, k, e. split; [done|]. reflexivity.
Qed.

Lemma sameButSetting_refl d k (m : gmap string Domain) : sameButSetting d k m m.
Proof. split; [done|]. destruct (m !! d); auto. Qed.

Lemma setting_delete_ne e k k' :
  k' <> k -> setting (setConfig (delete k <$> config e) e) k' = setting e k'.
Proof.
  intros Hne. unfold setting. destruct e as [t v [c|]]; simpl; [|done].
  by apply lookup_delete_ne.
Qed.

(** [removeDomainConfiguration] on its target. *)
Lemma removeDomainConfiguration_target node w :
  let w' := finalState (removeDomainConfiguration node w) in
  match removalTarget (conf w) (Key node) with
  | Some (d, k) =>
      sameButSetting d k (domains w) (domains w') /\
      (removeDomainConfiguration node w = Ok tt w' ->
       forall e', domains w' !! d = Some e' -> setting e' k = None)
  | None => w' = w
  end.
Proof.
  unfold removeDomainConfiguration, removalTarget, submatch, bind, this, at_, deref,
    ret, raise, update. simpl.
  destruct (MatchString _ _); [|done].
  destruct (FindStringSubmatch _ _ !! 1%nat) as [g1|]; simpl; [|done].
  destruct (FindStringSubmatch _ _ !! 2%nat) as [g2|]; simpl.
  2:{ by destruct (domains w !! g1). }
  destruct (Split g2 slash !! 0%nat) as [k|]; simpl.
  2:{ by destruct (domains w !! g1). }
  destruct (domains w !! g1) as [e|] eqn:He; simpl.
  - split.
    + split; [intros d' Hne; by apply lookup_insert_ne|].
      rewrite He, lookup_insert_eq. repeat split.
      intros k' Hne. by apply (setting_delete_ne e).
    + intros _ e'. rewrite lookup_insert_eq. intros [= <-].
      unfold setting. simpl. destruct (config e); simpl; [|done].
      apply lookup_delete_eq.
  - split; [apply sameButSetting_refl|]. done.
Qed.

(** C10.  Frame of the three removals.  [RemoveDomain d] takes [d] out of
    the domain registry and leaves every other domain, the services and
    the log as they were.  [removeDomainConfiguration], however it ends,
    leaves the services alone; when the key of the node names settings
    entry [k] of domain [d] it changes nothing but that entry (every
    other domain, and the kind, target and other settings of [d], keep
    their values), and for any other key it changes nothing at all.
    [RemoveEnv s] takes cluster [s] out and leaves every other cluster
    and the domains as they were. *)
Theorem removals_frame w :
  (forall d, exists w',
      RemoveDomain d w = Ok tt w' /\ services w' = services w /\ glog w' = glog w /\
      domains w' !! d = None /\
      forall d', d' <> d -> domains w' !! d' = domains w !! d') /\
  (forall node,
      services (finalState (removeDomainConfiguration node w)) = services w /\
      match removalTarget (conf w) (Key node) with
      | Some (d, k) =>
          sameButSetting d k (domains w)
            (domains (finalState (removeDomainConfiguration node w)))
      | None => finalState (removeDomainConfiguration node w) = w
      end) /\
  (forall s, exists w',
      RemoveEnv s w = Ok tt w' /\ domains w' = domains w /\ glog w' = glog w /\
      services w' !! s = None /\
      forall s', s' <> s -> services w' !! s' = services w !! s').
Proof.
  split; [|split].
  - intros d. eexists; split; [reflexivity|]. simpl. repeat split.
    + apply lookup_delete_eq.
    + intros d' Hne. by apply lookup_delete_ne.
  - intros node. split.
    + destruct (removeDomainConfiguration_cases node w)
        as [-> | [[p ->] | (d & k & e & He & ->)]]; done.
    + pose proof (removeDomainConfiguration_target node w) as Ht. simpl in Ht.
      destruct (removalTarget (conf w) (Key node)) as [[d k]|]; [apply Ht|done].
  - intros s. eexists; split; [reflexivity|]. simpl. repeat split.
    + apply lookup_delete_eq.
    + intros s' Hne. by apply lookup_delete_ne.
Qed.

(** *** A failed read of the service's root key *)

(** C5.  When the read of the service's root key fails, the registrar
    returns with both registries untouched, and the only thing it has
    done is to log the error. *)
Theorem registerService_read_failure w node action serviceName :
  getEnvForNode node w = Ok serviceName w ->
  client w (servicePrefix (conf w) +:+ "/" +:+ serviceName) true true = None ->
  exists w',
    registerService' node action w = Ok tt w' /\
    services w' = services w /\ domains w' = domains w /\
    glog w' = glog w ++ [UnableToGetInformation serviceName].
Proof.
  intros Hname Hget.
  exists (addLog (UnableToGetInformation serviceName) w).
  split; [|done].
  unfold registerService, bind. rewrite Hname. simpl. by rewrite Hget.
Qed.

(** *** Building a Service from the read of its key *)

Lemma append_inj_r (p a b : string) : p +:+ a = p +:+ b -> a = b.
Proof. induction p as [|c p IH]; simpl; [done|]. intros H. apply IH. by inversion H. Qed.

Lemma eqb_append_ne (p a b : string) : a <> b -> String.eqb (p +:+ a) (p +:+ b) = false.
Proof. intros Hne. apply String.eqb_neq. intros H. by apply Hne, (append_inj_r p). Qed.







Lemma NoDup_keys_others (pre post : list Node) node :
  NoDup (Key <$> (pre ++ node :: post)) ->
  Forall (fun n => Key n <> Key node) pre /\ Forall (fun n => Key n <> Key node) post.
Proof.
  rewrite fmap_app, fmap_cons. intros Hnd.
  apply NoDup_app in Hnd as (_ & Hpre & Hpost).
  apply NoDup_cons in Hpost as [Hpost _].
  split; apply Forall_forall; intros n Hn Heq.
  - apply (Hpre (Key n)); [by apply list_elem_of_fmap_2|]. rewrite Heq. by left.
  - apply Hpost. rewrite <- Heq. by apply list_elem_of_fmap_2.
Qed.

(** *** One turn of the service registrar's loop *)

Lemma registerServiceNodes_nil serviceName action w :
  registerServiceNodes' serviceName action [] w = Ok tt w.
Proof. reflexivity. Qed.

(** The read of the instance's key fails: on to the next instance. *)
Lemma registerServiceNodes_skip serviceName action indexNode rest w serviceIndex :
  envIndexOfKey (conf w) (Key indexNode) = Some serviceIndex ->
  client w (servicePrefix (conf w) +:+ "/" +:+ serviceName +:+ "/" +:+ serviceIndex)
    true true = None ->
  registerServiceNodes' serviceName action (indexNode :: rest) w =
  registerServiceNodes' serviceName action rest w.
Proof.
  intros Hi Hget. simpl. unfold bind at 1. rewrite getEnvIndexForNode_run, Hi.
  unfold bind at 1, this. by rewrite Hget.
Qed.

Lemma index_buildService serviceName i serviceKey response :
  index (buildService' serviceName i serviceKey response) = i.
Proof.
  unfold buildService.
  match goal with |- index (foldl _ ?s0 _) = _ => change i with (index s0) at 2; generalize s0 end.
  induction (Nodes (RespNode response)) as [|n l IH]; intros s; simpl; [done|].
  rewrite IH. unfold serviceNode.
  destruct (String.eqb (Key n) (serviceKey +:+ "/location")).
  { by destruct (unmarshalLocation _). }
  destruct (String.eqb (Key n) (serviceKey +:+ "/config")).
  { generalize s. induction (Nodes n) as [|m l' IH']; intros s'; simpl; [done|].
    rewrite IH'. unfold serviceConfigNode.
    destruct (String.eqb _ _); [|done]. by destruct (unmarshalServiceConfig _). }
  destruct (String.eqb (Key n) (serviceKey +:+ "/domain")); [done|].
  destruct (String.eqb (Key n) (serviceKey +:+ "/status")); [|done].
  change (index s) with (index (setStatus (Some newStatus) s)).
  generalize (setStatus (Some newStatus) s).
  induction (Nodes n) as [|m l' IH']; intros s'; simpl; [done|].
  rewrite IH'. unfold serviceStatusNode.
  repeat (destruct (String.eqb _ _); [done|]). done.
Qed.

(** The read of the instance's key succeeds, the action is not delete:
    the instance is built, compared and, if need be, registered. *)
Lemma registerServiceNodes_turn serviceName action indexNode rest w i response :
  envIndexOfKey (conf w) (Key indexNode) = Some i ->
  client w (serviceKeyOf (conf w) serviceName i) true true = Some response ->
  action <> "delete" ->
  registerServiceNodes' serviceName action (indexNode :: rest) w =
  registerServiceNodes' serviceName action rest
    (afterTurn serviceName
       (buildService' serviceName i (serviceKeyOf (conf w) serviceName i) response) w).
Proof.
  intros Hi Hget Hact. apply String.eqb_neq in Hact.
  simpl. unfold bind at 1. rewrite getEnvIndexForNode_run, Hi.
  unfold bind at 1, this. unfold serviceKeyOf in *. rewrite Hget.
  unfold afterTurn, bind, update, deref, ret, glogf, this. rewrite Hact.
  set (s := buildService _ _ _ _ _ _ _).
  destruct (services w !! serviceName) as [cl|] eqn:Hcl; simpl.
  - rewrite Hcl. simpl. destruct (Service_equals (Get cl (index s)) s); simpl; [done|].
    unfold registeringLine. by destruct (negb _ && negb _).
  - rewrite lookup_insert_eq. simpl.
    unfold registeringLine, setServices, addLog, Get. simpl.
    rewrite lookup_empty. simpl.
    destruct (negb _ && negb _); simpl; by rewrite insert_insert_eq.
Qed.

(** The read of the instance's key succeeds, the action is delete: the
    cluster goes, and so does the rest of the loop. *)
Lemma registerServiceNodes_delete serviceName indexNode rest w i response :
  envIndexOfKey (conf w) (Key indexNode) = Some i ->
  client w (serviceKeyOf (conf w) serviceName i) true true = Some response ->
  registerServiceNodes' serviceName "delete" (indexNode :: rest) w =
  Ok tt (addLog (RemovingService serviceName) (setServices (delete serviceName) w)).
Proof.
  intros Hi Hget.
  simpl. unfold bind at 1. rewrite getEnvIndexForNode_run, Hi.
  unfold bind at 1, this. unfold serviceKeyOf in *. rewrite Hget.
  unfold bind, update, glogf, RemoveEnv.
  destruct (services w !! serviceName) as [cl|] eqn:Hcl; simpl; [done|].
  unfold addLog, setServices, update. simpl. by rewrite delete_insert_eq.
Qed.

Lemma registerServiceNodes_panic serviceName action indexNode rest w :
  envIndexOfKey (conf w) (Key indexNode) = None ->
  registerServiceNodes' serviceName action (indexNode :: rest) w =
  Panicked IndexOutOfRange w.
Proof.
  intros Hi. simpl. unfold bind at 1. by rewrite getEnvIndexForNode_run, Hi.
Qed.

Lemma conf_afterTurn serviceName s w : conf (afterTurn serviceName s w) = conf w.
Proof.
  unfold afterTurn. destruct (services w !! serviceName); [|done].
  by destruct (Service_equals _ _).
Qed.

Lemma client_afterTurn serviceName s w : client (afterTurn serviceName s w) = client w.
Proof.
  unfold afterTurn. destruct (services w !! serviceName); [|done].
  by destruct (Service_equals _ _).
Qed.

Lemma domains_afterTurn serviceName s w : domains (afterTurn serviceName s w) = domains w.
Proof.
  unfold afterTurn. destruct (services w !! serviceName); [|done].
  by destruct (Service_equals _ _).
Qed.



(** *** The loop of the service registrar, for an action other than delete *)

Lemma registerServiceNodes_cons serviceName action n rest w :
  action <> "delete" ->
  registerServiceNodes' serviceName action (n :: rest) w =
  match envIndexOfKey (conf w) (Key n) with
  | None => Panicked IndexOutOfRange w
  | Some i =>
      match built w serviceName i with
      | Some s => registerServiceNodes' serviceName action rest (afterTurn serviceName s w)
      | None => registerServiceNodes' serviceName action rest w
      end
  end.
Proof.
  intros Hact. destruct (envIndexOfKey (conf w) (Key n)) as [i|] eqn:Hi.
  - unfold built.
    destruct (client w (serviceKeyOf (conf w) serviceName i) true true) as [r|] eqn:Hget.
    + by apply registerServiceNodes_turn.
    + by apply (registerServiceNodes_skip _ _ _ _ _ i).
  - by apply registerServiceNodes_panic.
Qed.

Lemma built_afterTurn serviceName s w serviceName' i :
  built (afterTurn serviceName s w) serviceName' i = built w serviceName' i.
Proof. unfold built. by rewrite conf_afterTurn, client_afterTurn. Qed.

Lemma index_built w serviceName i s : built w serviceName i = Some s -> index s = i.
Proof.
  unfold built. destruct (client w _ true true); [|done].
  intros [= <-]. apply index_buildService.
Qed.

Lemma Service_equals_true (a : option (Service ServiceConfig)) s :
  Service_equals a s = true <-> a = Some s.
Proof.
  unfold Service_equals. destruct a as [a|]; [|done].
  rewrite bool_decide_eq_true. split; congruence.
Qed.

Lemma afterTurn_holds serviceName s w : holds (afterTurn serviceName s w) serviceName s.
Proof.
  unfold afterTurn, holds.
  destruct (services w !! serviceName) as [cl|] eqn:Hcl.
  - destruct (Service_equals (Get cl (index s)) s) eqn:He.
    + apply Service_equals_true in He. eauto.
    + simpl. rewrite lookup_insert_eq. eexists; split; [done|]. simpl.
      apply lookup_insert_eq.
  - simpl. rewrite lookup_insert_eq. eexists; split; [done|]. simpl.
    apply lookup_insert_eq.
Qed.

Lemma afterTurn_keeps serviceName s s' w :
  holds w serviceName s' -> (index s = index s' -> s = s') ->
  holds (afterTurn serviceName s w) serviceName s'.
Proof.
  intros (cl & Hcl & Hs') Hsame. unfold afterTurn, holds. rewrite Hcl.
  destruct (Service_equals (Get cl (index s)) s); [eauto|].
  simpl. rewrite lookup_insert_eq. eexists; split; [done|]. simpl.
  destruct (decide (index s = index s')) as [He|Hne].
  - rewrite <- (Hsame He). apply lookup_insert_eq.
  - by rewrite lookup_insert_ne.
Qed.

Lemma afterTurn_id serviceName s w :
  holds w serviceName s -> afterTurn serviceName s w = w.
Proof.
  intros (cl & Hcl & Hs). unfold afterTurn, Get. rewrite Hcl.
  by rewrite (proj2 (Service_equals_true _ _) Hs).
Qed.

Lemma clusterIndices_afterTurn serviceName s w :
  clusterIndices (afterTurn serviceName s w) serviceName
  = {[index s]} ∪ clusterIndices w serviceName.
Proof.
  unfold afterTurn, clusterIndices.
  destruct (services w !! serviceName) as [cl|] eqn:Hcl.
  - destruct (Service_equals (Get cl (index s)) s) eqn:He.
    + rewrite Hcl. apply Service_equals_true in He.
      assert (index s ∈ dom (instances cl)) as Hin by (apply elem_of_dom; eauto).
      apply set_eq. intros x. rewrite elem_of_union, elem_of_singleton.
      split; [by right|]. by intros [->|Hx].
    + simpl. rewrite lookup_insert_eq. simpl. by rewrite dom_insert_L.
  - simpl. rewrite lookup_insert_eq. simpl. by rewrite dom_insert_L.
Qed.

Lemma services_afterTurn_other serviceName s w other :
  other <> serviceName -> services (afterTurn serviceName s w) !! other = services w !! other.
Proof.
  intros Hne. unfold afterTurn.
  destruct (services w !! serviceName) as [cl|].
  - destruct (Service_equals _ _); [done|]. simpl. by rewrite lookup_insert_ne.
  - simpl. by rewrite lookup_insert_ne.
Qed.

(** The loop leaves the client, the configuration and the domains alone. *)
Lemma registerServiceNodes_frame serviceName action (nodes : list Node) w w' :
  registerServiceNodes' serviceName action nodes w = Ok tt w' ->
  conf w' = conf w /\ client w' = client w /\ domains w' = domains w.
Proof.
  revert w. induction nodes as [|n l IH]; intros w.
  - by intros [= <-].
  - destruct (decide (action = "delete")) as [->|Hact].
    + destruct (envIndexOfKey (conf w) (Key n)) as [i|] eqn:Hi;
        [|by rewrite registerServiceNodes_panic].
      destruct (client w (serviceKeyOf (conf w) serviceName i) true true) eqn:Hget.
      * erewrite registerServiceNodes_delete by done. by intros [= <-].
      * erewrite registerServiceNodes_skip by done. apply IH.
    + rewrite registerServiceNodes_cons by done.
      destruct (envIndexOfKey (conf w) (Key n)) as [i|]; [|done].
      destruct (built w serviceName i) as [s|]; [|apply IH].
      intros H. apply IH in H as (-> & -> & ->).
      by rewrite conf_afterTurn, client_afterTurn, domains_afterTurn.
Qed.

(** What the loop registered stays registered while the loop goes on. *)
Lemma registerServiceNodes_keeps serviceName action (nodes : list Node) w w' i s :
  action <> "delete" ->
  registerServiceNodes' serviceName action nodes w = Ok tt w' ->
  built w serviceName i = Some s -> holds w serviceName s -> holds w' serviceName s.
Proof.
  intros Hact. revert w. induction nodes as [|n l IH]; intros w.
  - by intros [= <-].
  - rewrite registerServiceNodes_cons by done.
    destruct (envIndexOfKey (conf w) (Key n)) as [j|]; [|done].
    destruct (built w serviceName j) as [sj|] eqn:Hj; [|apply IH].
    intros Hrun Hb Hh. apply (IH _ Hrun); [by rewrite built_afterTurn|].
    apply afterTurn_keeps; [done|].
    rewrite (index_built _ _ _ _ Hj), (index_built _ _ _ _ Hb).
    intros ->. congruence.
Qed.

(** After the loop, every instance it could read is registered as built. *)
Lemma registerServiceNodes_holds serviceName action (nodes : list Node) w w' n i s :
  action <> "delete" ->
  registerServiceNodes' serviceName action nodes w = Ok tt w' ->
  n ∈ nodes -> envIndexOfKey (conf w) (Key n) = Some i ->
  built w serviceName i = Some s -> holds w' serviceName s.
Proof.
  intros Hact. revert w. induction nodes as [|m l IH]; intros w Hrun Hin Hi Hb.
  - by apply elem_of_nil in Hin.
  - rewrite registerServiceNodes_cons in Hrun by done.
    apply elem_of_cons in Hin as [->|Hin].
    + rewrite Hi, Hb in Hrun.
      eapply registerServiceNodes_keeps; [done|apply Hrun| |apply afterTurn_holds].
      by rewrite built_afterTurn.
    + destruct (envIndexOfKey (conf w) (Key m)) as [j|]; [|done].
      destruct (built w serviceName j) as [sj|] eqn:Hj; [|by apply (IH w)].
      apply (IH _ Hrun Hin); [by rewrite conf_afterTurn|by rewrite built_afterTurn].
Qed.

(** The indices of the cluster after the loop: those it had, and those
    of the children whose key could be read. *)
Lemma registerServiceNodes_indices serviceName action (nodes : list Node) w w' i :
  action <> "delete" ->
  registerServiceNodes' serviceName action nodes w = Ok tt w' ->
  i ∈ clusterIndices w' serviceName <->
  i ∈ clusterIndices w serviceName \/
  exists n, n ∈ nodes /\ envIndexOfKey (conf w) (Key n) = Some i /\
            is_Some (built w serviceName i).
Proof.
  intros Hact. revert w. induction nodes as [|m l IH]; intros w Hrun.
  - injection Hrun as <-. split; [by left|]. intros [H|(n & Hn & _)]; [done|].
    by apply elem_of_nil in Hn.
  - rewrite registerServiceNodes_cons in Hrun by done.
    destruct (envIndexOfKey (conf w) (Key m)) as [j|] eqn:Hj; [|done].
    destruct (built w serviceName j) as [sj|] eqn:Hb.
    + rewrite (IH _ Hrun), clusterIndices_afterTurn, conf_afterTurn.
      rewrite (index_built _ _ _ _ Hb). setoid_rewrite built_afterTurn.
      split.
      * intros [[->%elem_of_singleton|H]%elem_of_union|(n & Hn & Hi & Hs)].
        -- right. exists m. split; [by left|]. by rewrite Hb.
        -- by left.
        -- right. exists n. split; [by right|done].
      * intros [H|(n & [->|Hn]%elem_of_cons & Hi & Hs)].
        -- left. apply elem_of_union. by right.
        -- left. rewrite Hj in Hi. injection Hi as ->.
           apply elem_of_union. left. by apply elem_of_singleton.
        -- right. eauto.
    + rewrite (IH _ Hrun). split.
      * intros [H|(n & Hn & Hi & Hs)]; [by left|].
        right. exists n. split; [by right|done].
      * intros [H|(n & [->|Hn]%elem_of_cons & Hi & Hs)]; [by left| |right; eauto].
        rewrite Hj in Hi. injection Hi as ->. rewrite Hb in Hs. by destruct Hs.
Qed.

(** *** The service registrar over a sequence of events *)

Lemma registerService_frame node action w w' :
  registerService' node action w = Ok tt w' ->
  conf w' = conf w /\ client w' = client w /\ domains w' = domains w.
Proof.
  unfold registerService, bind at 1. rewrite getEnvForNode_run.
  destruct (envOfKey (conf w) (Key node)) as [serviceName|]; [|done].
  unfold bind, this.
  destruct (client w _ true true) as [root|].
  - apply registerServiceNodes_frame.
  - by intros [= <-].
Qed.

Lemma handleEvents_snoc (f : Node -> string -> M ServiceConfig unit) evs ev w w' :
  handleEvents f (evs ++ [ev]) w = Ok tt w' ->
  exists wp, handleEvents f evs w = Ok tt wp /\ handleEvent f ev wp = Ok tt w'.
Proof.
  revert w. induction evs as [|e l IH]; intros w; simpl.
  - unfold bind at 1. destruct (handleEvent f ev w) as [[] w1|] eqn:He; [|done].
    intros [= <-]. by exists w.
  - unfold bind. destruct (handleEvent f e w) as [[] w1|]; [|done]. apply IH.
Qed.

Lemma handleEvents_conf evs w w' :
  handleEvents registerService' evs w = Ok tt w' -> conf w' = conf w.
Proof.
  revert w. induction evs as [|e l IH]; intros w; simpl.
  - by intros [= <-].
  - unfold bind at 1.
    destruct (handleEvent registerService' e w) as [[] w1|] eqn:He; [|done].
    intros H. rewrite (IH _ H).
    unfold handleEvent, bind, update, watchResponse in He. simpl in He.
    by apply registerService_frame in He as (-> & _).
Qed.

Lemma elem_of_storeIndices (c : Client) cfg serviceName root i :
  c (servicePrefix cfg +:+ "/" +:+ serviceName) true true = Some root ->
  i ∈ storeIndices c cfg serviceName <->
  exists n, n ∈ Nodes (RespNode root) /\ envIndexOfKey cfg (Key n) = Some i.
Proof. intros Hroot. unfold storeIndices. rewrite Hroot. apply list_elem_of_omap. Qed.

(** C7, as the registrar has it.  After a sequence of service change
    events whose last one is not a delete and finds the root key of its
    service readable, the cluster of that service holds the indices it
    held before that last event, together with the indices of the
    store's subtree whose key could be read, and nothing else; every
    instance of the store's subtree that could be read is registered as
    built from the store's content at that time (a leaf that does not
    decode leaves its field at the zero value of the fresh Service).
    Indices that left the store are not taken out. *)
Theorem cluster_after_events evs ev w w' serviceName root :
  handleEvents registerService' (evs ++ [ev]) w = Ok tt w' ->
  Action (delivered ev) <> "delete" ->
  envOfKey (conf w) (Key (RespNode (delivered ev))) = Some serviceName ->
  store ev (servicePrefix (conf w) +:+ "/" +:+ serviceName) true true = Some root ->
  exists wp,
    handleEvents registerService' evs w = Ok tt wp /\
    client w' = store ev /\ conf w' = conf w /\
    (forall i, i ∈ clusterIndices w' serviceName <->
               i ∈ clusterIndices wp serviceName \/
               (i ∈ storeIndices (client w') (conf w') serviceName /\
                is_Some (built w' serviceName i))) /\
    (forall i s, i ∈ storeIndices (client w') (conf w') serviceName ->
                 built w' serviceName i = Some s -> holds w' serviceName s).
Proof.
  intros Hrun Hact Hname Hroot.
  apply handleEvents_snoc in Hrun as (wp & Hevs & Hev).
  exists wp. split; [done|].
  pose proof (handleEvents_conf _ _ _ Hevs) as Hconf.
  unfold handleEvent, bind, update, watchResponse in Hev. simpl in Hev.
  set (w1 := setClient (store ev) wp) in *.
  assert (conf w1 = conf w) as Hc1 by done.
  destruct (registerService_frame _ _ _ _ Hev) as (Hc & Hcl & _).
  unfold registerService, bind at 1 in Hev. rewrite getEnvForNode_run in Hev.
  rewrite Hc1, Hname in Hev. unfold bind, this in Hev. rewrite Hc1 in Hev.
  change (client w1) with (store ev) in Hev. rewrite Hroot in Hev.
  assert (forall i, built w' serviceName i = built w1 serviceName i) as Hb.
  { intros i. unfold built. by rewrite Hc, Hcl. }
  rewrite Hcl, Hc, Hc1. change (client w1) with (store ev).
  repeat split.
  - intros Hi. apply (registerServiceNodes_indices _ _ _ _ _ i Hact Hev) in Hi
      as [Hi|(n & Hn & Hi & Hs)]; [by left|right].
    rewrite Hc1 in Hi. rewrite Hb. split; [|done].
    apply (elem_of_storeIndices _ _ _ _ _ Hroot). eauto.
  - intros Hi. apply (registerServiceNodes_indices _ _ _ _ _ i Hact Hev).
    destruct Hi as [Hi|[Hi Hs]]; [by left|right].
    apply (elem_of_storeIndices _ _ _ _ _ Hroot) in Hi as (n & Hn & Hi).
    exists n. rewrite Hc1, <- Hb. eauto.
  - intros i s Hi Hs.
    apply (elem_of_storeIndices _ _ _ _ _ Hroot) in Hi as (n & Hn & Hi).
    rewrite Hb in Hs.
    eapply registerServiceNodes_holds; [done|apply Hev|apply Hn| |done].
    by rewrite Hc1.
Qed.

(** *** Handling the same service event again *)

Lemma registerServiceNodes_decodes serviceName action (nodes : list Node) w w' :
  action <> "delete" ->
  registerServiceNodes' serviceName action nodes w = Ok tt w' ->
  Forall (fun n => is_Some (envIndexOfKey (conf w) (Key n))) nodes.
Proof.
  intros Hact. revert w. induction nodes as [|n l IH]; intros w Hrun; [done|].
  rewrite registerServiceNodes_cons in Hrun by done.
  destruct (envIndexOfKey (conf w) (Key n)) as [i|] eqn:Hi; [|done].
  constructor; [by rewrite Hi|].
  destruct (built w serviceName i) as [s|]; [|by apply IH].
  apply IH in Hrun. by rewrite conf_afterTurn in Hrun.
Qed.

(** A state in which every readable instance is registered as built is
    a fixed point of the loop. *)
Lemma registerServiceNodes_fixed serviceName action (nodes : list Node) w :
  action <> "delete" ->
  Forall (fun n => exists i, envIndexOfKey (conf w) (Key n) = Some i /\
                     forall s, built w serviceName i = Some s -> holds w serviceName s)
    nodes ->
  registerServiceNodes' serviceName action nodes w = Ok tt w.
Proof.
  intros Hact. induction nodes as [|n l IH]; intros Hall; [done|].
  inversion Hall as [|? ? (i & Hi & Hh) Hl]; subst.
  rewrite registerServiceNodes_cons, Hi by done.
  destruct (built w serviceName i) as [s|]; [|by apply IH].
  rewrite afterTurn_id by auto. by apply IH.
Qed.

Lemma registerServiceNodes_again serviceName action (nodes : list Node) w w1 :
  action <> "delete" ->
  registerServiceNodes' serviceName action nodes w = Ok tt w1 ->
  registerServiceNodes' serviceName action nodes w1 = Ok tt w1.
Proof.
  intros Hact Hrun.
  destruct (registerServiceNodes_frame _ _ _ _ _ Hrun) as (Hc & Hcl & _).
  apply registerServiceNodes_fixed; [done|].
  pose proof (registerServiceNodes_decodes _ _ _ _ _ Hact Hrun) as Hdec.
  apply Forall_forall. intros n Hn.
  destruct (proj1 (Forall_forall _ _) Hdec n Hn) as [i Hi].
  exists i. rewrite Hc. split; [done|]. intros s Hs.
  eapply registerServiceNodes_holds; [done|apply Hrun|apply Hn|done|].
  unfold built in *. by rewrite <- Hc, <- Hcl.
Qed.

Lemma registerServiceNodes_delete_same serviceName (nodes : list Node) w wa w' :
  conf wa = conf w -> client wa = client w ->
  registerServiceNodes' serviceName "delete" nodes w = Ok tt w' ->
  (w' = w /\ registerServiceNodes' serviceName "delete" nodes wa = Ok tt wa) \/
  (w' = removed serviceName w /\
   registerServiceNodes' serviceName "delete" nodes wa = Ok tt (removed serviceName wa)).
Proof.
  intros Hc Hcl. induction nodes as [|n l IH]; intros Hrun.
  - injection Hrun as <-. by left.
  - destruct (envIndexOfKey (conf w) (Key n)) as [i|] eqn:Hi;
      [|by rewrite registerServiceNodes_panic in Hrun].
    destruct (client w (serviceKeyOf (conf w) serviceName i) true true) eqn:Hget.
    + erewrite registerServiceNodes_delete in Hrun by done. injection Hrun as <-.
      right. split; [done|].
      eapply registerServiceNodes_delete; [by rewrite Hc|by rewrite Hc, Hcl].
    + erewrite registerServiceNodes_skip in Hrun by done.
      rewrite (registerServiceNodes_skip _ _ _ _ _ i); [by apply IH|by rewrite Hc|].
      unfold serviceKeyOf in Hget. by rewrite Hc, Hcl.
Qed.

(** The service registrar, run again on the event it has just handled,
    registers nothing: the registries stay as they are and no line that
    records a publication is logged. *)
Lemma registerService_again node action w w1 :
  registerService' node action w = Ok tt w1 ->
  exists w2 extra,
    registerService' node action w1 = Ok tt w2 /\
    services w2 = services w1 /\ domains w2 = domains w1 /\
    glog w2 = glog w1 ++ extra /\ Forall (fun l => isPublish l = false) extra.
Proof.
  intros Hrun.
  destruct (registerService_frame _ _ _ _ Hrun) as (Hc & Hcl & _).
  revert Hrun. unfold registerService, bind at 1 3.
  rewrite !getEnvForNode_run, Hc.
  destruct (envOfKey (conf w) (Key node)) as [serviceName|]; [|done].
  unfold bind, this. rewrite Hc, Hcl.
  destruct (client w _ true true) as [root|].
  - destruct (decide (action = "delete")) as [->|Hact]; intros Hrun.
    + destruct (registerServiceNodes_delete_same _ _ _ w1 _ Hc Hcl Hrun)
        as [[-> Hagain]|[-> Hagain]].
      * exists w, []. rewrite Hagain, app_nil_r. by repeat split.
      * eexists _, [RemovingService serviceName]. rewrite Hagain.
        split; [done|]. simpl. rewrite delete_delete_eq.
        repeat split. by repeat constructor.
    + exists w1, []. rewrite (registerServiceNodes_again _ _ _ _ _ Hact Hrun).
      rewrite app_nil_r. by repeat split.
  - intros [= <-]. eexists _, [UnableToGetInformation serviceName].
    split; [done|]. simpl. repeat split. by repeat constructor.
Qed.

(** *** The loop of the domain registrar *)

Lemma registerDomainNode_run domainKey domain node w :
  registerDomainNode domainKey domain node w =
  match nodeWrite (conf w) node with
  | NoWrite => Ok (scanNode domainKey domain node) w
  | BadKey => Panicked IndexOutOfRange w
  | Write d k v =>
      match domains w !! d with
      | None => Panicked NilPointerDereference w
      | Some e =>
          match config e with
          | None => Panicked NilMapAssignment w
          | Some _ =>
              Ok (scanNode domainKey domain node) (setDomains (fun m => putSetting m (Write d k v)) w)
          end
      end
  end.
Proof.
  unfold registerDomainNode, nodeWrite, bind at 1. rewrite isDomainConfiguration_run.
  destruct (MatchString _ _); [|done].
  unfold bind at 1. rewrite getDomainConfiguration_run.
  destruct (configurationOfKey (conf w) (Key node)) as [k|]; [|done].
  unfold putDomainConfiguration, bind at 1 2. rewrite getDomainForNode_run.
  destruct (domainOfKey (conf w) (Key node)) as [d|]; [|done].
  unfold bind, this, deref, ret, raise, update. simpl.
  destruct (domains w !! d) as [e|] eqn:He; simpl; [|done].
  destruct (config e) as [c|] eqn:Hc; simpl; [|done].
  unfold setDomains. do 2 f_equal.
  apply map_eq. intros d'. rewrite lookup_alter.
  destruct (decide (d = d')) as [<-|Hne].
  - rewrite lookup_insert_eq, He. simpl. by rewrite Hc.
  - by rewrite lookup_insert_ne.
Qed.

(** A walk that returns has rebuilt the Domain from the children alone
    and has put their settings in the registry; it has touched nothing
    else. *)
Lemma registerDomainNodes_Ok domainKey domain0 (nodes : list Node) w domain wm :
  registerDomainNodes domainKey domain0 nodes w = Ok domain wm ->
  domain = foldl (scanNode domainKey) domain0 nodes /\
  wm = setDomains (fun m => foldl putSetting m (nodeWrite (conf w) <$> nodes)) w.
Proof.
  revert domain0 w. induction nodes as [|n l IH]; intros domain0 w; simpl.
  - intros [= <- <-]. split; [done|]. by destruct w.
  - unfold bind. rewrite registerDomainNode_run.
    destruct (nodeWrite (conf w) n) as [| |d k v] eqn:Hn; [|done|].
    + intros H. apply IH in H as [-> ->]. split; [done|]. by destruct w.
    + destruct (domains w !! d) as [e|]; [|done].
      destruct (config e); [|done].
      intros H. apply IH in H as [-> ->]. done.
Qed.

(** However the walk ends, it has logged nothing and has left the
    services, the client and the configuration alone; the domains have
    kept their kind and target. *)
Lemma registerDomainNodes_frame domainKey domain0 (nodes : list Node) w :
  let w' := finalState (registerDomainNodes domainKey domain0 nodes w) in
  glog w' = glog w /\ services w' = services w /\ conf w' = conf w /\
  client w' = client w /\
  forall d, kindOf <$> domains w' !! d = kindOf <$> domains w !! d.
Proof.
  revert domain0 w. induction nodes as [|n l IH]; intros domain0 w; simpl; [done|].
  unfold bind. rewrite registerDomainNode_run.
  destruct (nodeWrite (conf w) n) as [| |d k v]; [apply IH|done|].
  destruct (domains w !! d) as [e|] eqn:He; [|done].
  destruct (config e); [|done].
  destruct (IH (scanNode domainKey domain0 n)
              (setDomains (fun m => putSetting m (Write d k v)) w))
    as (-> & -> & -> & -> & Hk).
  repeat split. intros d'. rewrite Hk. simpl. rewrite lookup_alter.
  destruct (decide (d = d')) as [<-|]; [|done]. by rewrite He.
Qed.

(** The walk returns, and leaves the state alone, when no child is read
    as a settings node. *)
Lemma registerDomainNodes_no_settings domainKey domain0 (nodes : list Node) w :
  Forall (fun n => nodeWrite (conf w) n = NoWrite) nodes ->
  registerDomainNodes domainKey domain0 nodes w
  = Ok (foldl (scanNode domainKey) domain0 nodes) w.
Proof.
  revert domain0. induction nodes as [|n l IH]; intros domain0 Hall; simpl; [done|].
  inversion Hall as [|? ? Hn Hl]; subst.
  unfold bind. rewrite registerDomainNode_run, Hn. by apply IH.
Qed.

(** *** Publishing a Domain *)


(** The test that guards the publication. *)
Lemma publish_test domain (actual : option Domain) :
  negb (String.eqb (typ domain) "") && negb (String.eqb (value domain) "")
  && negb (Domain_equals domain actual) = true <->
  fullyDefined domain /\ Domain_equals domain actual = false.
Proof.
  unfold fullyDefined.
  rewrite !andb_true_iff, !negb_true_iff, !String.eqb_neq. tauto.
Qed.


(** *** Settings written twice *)

Lemma settingsAfter_cons x xs d c :
  settingsAfter (x :: xs) d c =
  settingsAfter xs d
    match x with
    | Write d' k v => if decide (d' = d) then <[k := v]> c else c
    | NoWrite | BadKey => c
    end.
Proof. reflexivity. Qed.

Lemma settingsAfter_union xs d (g c : gmap string string) :
  settingsAfter xs d (g ∪ c) = settingsAfter xs d g ∪ c.
Proof.
  revert g. induction xs as [|x l IH]; intros g; [done|].
  rewrite !settingsAfter_cons. destruct x as [| |d' k v]; [apply IH..|].
  destruct (decide (d' = d)); [|apply IH].
  rewrite <- IH. by rewrite insert_union_l.
Qed.

Lemma settingsAfter_overlay xs d (c : gmap string string) :
  settingsAfter xs d c = settingsAfter xs d ∅ ∪ c.
Proof. by rewrite <- settingsAfter_union, (left_id_L ∅ (∪)). Qed.

Lemma settingsAfter_idem xs d (c : gmap string string) :
  settingsAfter xs d (settingsAfter xs d c) = settingsAfter xs d c.
Proof.
  rewrite (settingsAfter_overlay xs d c).
  rewrite (settingsAfter_overlay xs d (_ ∪ c)).
  by rewrite (assoc_L (∪)), (idemp_L (∪)).
Qed.

Lemma setConfig_id (f : gmap string string -> gmap string string) e :
  (forall c, config e = Some c -> f c = c) -> setConfig (f <$> config e) e = e.
Proof.
  destruct e as [t v [c|]]; unfold setConfig; simpl; [|done].
  intros H. by rewrite H.
Qed.

(** The registry after a list of writes, domain by domain. *)
Lemma lookup_putSettings xs (m : gmap string Domain) d :
  foldl putSetting m xs !! d =
  (fun e => setConfig (settingsAfter xs d <$> config e) e) <$> m !! d.
Proof.
  revert m. induction xs as [|x l IH]; intros m; simpl.
  - destruct (m !! d) as [e|]; [|done]. simpl. by rewrite setConfig_id.
  - rewrite IH. destruct x as [| |d' k v]; simpl; [done..|].
    rewrite lookup_alter. destruct (decide (d' = d)) as [->|Hne].
    + destruct (m !! d) as [[t u [c|]]|]; simpl; try done.
      unfold setConfig, settingsAfter. simpl. by rewrite decide_True.
    + destruct (m !! d) as [[t u [c|]]|]; simpl; try done.
      unfold setConfig, settingsAfter. simpl. by rewrite decide_False.
Qed.

(** A registry whose settings already carry the writes is left as it
    is by them. *)
Lemma putSettings_fixed xs (m : gmap string Domain) :
  (forall d e c, m !! d = Some e -> config e = Some c -> settingsAfter xs d c = c) ->
  foldl putSetting m xs = m.
Proof.
  intros H. apply map_eq. intros d. rewrite lookup_putSettings.
  destruct (m !! d) as [e|] eqn:He; [|done]. simpl. f_equal.
  apply setConfig_id. intros c Hc. by apply (H d e).
Qed.

Lemma putSettings_carried xs (m : gmap string Domain) d e c :
  foldl putSetting m xs !! d = Some e -> config e = Some c ->
  settingsAfter xs d c = c.
Proof.
  rewrite lookup_putSettings.
  destruct (m !! d) as [[t u [c0|]]|]; simpl; try done.
  - intros [= <-]. simpl. intros [= <-]. apply settingsAfter_idem.
  - by intros [= <-].
Qed.

(** *** The domain registrar, branch by branch *)

Lemma registerDomain_remove node action w :
  action = "delete" \/ action = "expire" ->
  registerDomain node action w =
  match domainOfKey (conf w) (Key node) with
  | None => Panicked IndexOutOfRange w
  | Some domainName =>
      if MatchString (reIsDomainConfiguration (domainPrefix (conf w))) (Key node)
      then removeDomainConfiguration node w
      else Ok tt (setDomains (delete domainName) w)
  end.
Proof.
  intros Hact. unfold registerDomain, bind at 1. rewrite getDomainForNode_run.
  destruct (domainOfKey (conf w) (Key node)) as [domainName|]; [|done].
  unfold bind at 1, this.
  assert (String.eqb action "delete" || String.eqb action "expire" = true) as ->.
  { destruct Hact as [-> | ->]; [done|]. apply orb_true_r. }
  unfold bind at 1. rewrite isDomainConfiguration_run.
  by destruct (MatchString _ _).
Qed.

Lemma registerDomain_put node action w :
  action <> "delete" -> action <> "expire" ->
  registerDomain node action w =
  match domainOfKey (conf w) (Key node) with
  | None => Panicked IndexOutOfRange w
  | Some domainName =>
      match client w (domainPrefix (conf w) +:+ "/" +:+ domainName) true false with
      | None => Ok tt w
      | Some response =>
          match registerDomainNodes (domainPrefix (conf w) +:+ "/" +:+ domainName)
                  newDomain (Nodes (RespNode response)) w with
          | Panicked p wm => Panicked p wm
          | Ok domain wm =>
              if negb (String.eqb (typ domain) "") && negb (String.eqb (value domain) "")
                 && negb (Domain_equals domain (domains wm !! domainName))
              then Ok tt (addLog (RegisteredDomain domainName (typ domain) (value domain))
                            (setDomains <[domainName := domain]> wm))
              else Ok tt wm
          end
      end
  end.
Proof.
  intros Hdel Hexp. apply String.eqb_neq in Hdel, Hexp.
  unfold registerDomain, bind at 1. rewrite getDomainForNode_run.
  destruct (domainOfKey (conf w) (Key node)) as [domainName|]; [|done].
  unfold bind at 1, this. rewrite Hdel, Hexp. simpl.
  destruct (client w _ true false) as [response|]; [|done].
  unfold bind at 1.
  destruct (registerDomainNodes _ _ _ _) as [domain wm|]; [|done].
  unfold bind at 1.
  by destruct (negb _ && negb _ && negb _).
Qed.

Lemma config_rebuilt domainKey domain0 (nodes : list Node) :
  config (foldl (scanNode domainKey) domain0 nodes) = config domain0.
Proof.
  revert domain0. induction nodes as [|n l IH]; intros domain0; simpl; [done|].
  rewrite IH. unfold scanNode. by repeat destruct (String.eqb _ _).
Qed.

Lemma Domain_equals_refl domain : Domain_equals domain (Some domain) = true.
Proof. unfold Domain_equals. by rewrite !String.eqb_refl. Qed.

Lemma setDomains_fixed (f : gmap string Domain -> gmap string Domain) w :
  f (domains w) = domains w -> setDomains f w = w.
Proof. intros H. unfold setDomains. rewrite H. by destruct w. Qed.

(** *** Handling the same domain event again *)

Lemma registerDomain_put_again node action w w1 :
  action <> "delete" -> action <> "expire" ->
  registerDomain node action w = Ok tt w1 ->
  glog (finalState (registerDomain node action w1)) = glog w1 /\
  forall w2, registerDomain node action w1 = Ok tt w2 -> w2 = w1.
Proof.
  intros Hdel Hexp. rewrite !registerDomain_put by done.
  destruct (domainOfKey (conf w) (Key node)) as [domainName|] eqn:Hname; [|done].
  destruct (client w _ true false) as [response|] eqn:Hget.
  2:{ intros [= <-]. rewrite Hname, Hget. split; [done|]. by intros w2 [= <-]. }
  set (domainKey := domainPrefix (conf w) +:+ "/" +:+ domainName) in *.
  destruct (registerDomainNodes domainKey newDomain (Nodes (RespNode response)) w)
    as [domain wm|] eqn:Hwalk; [|done].
  destruct (registerDomainNodes_Ok _ _ _ _ _ _ Hwalk) as [Hdom Hwm].
  set (xs := nodeWrite (conf w) <$> Nodes (RespNode response)) in *.
  intros Hw1.
  assert (conf w1 = conf w /\ client w1 = client w) as [Hc Hcl].
  { destruct (negb _ && negb _ && negb _); injection Hw1 as <-; by rewrite Hwm. }
  rewrite Hc, Hcl, Hname. fold domainKey. rewrite Hget.
  pose proof (registerDomainNodes_frame domainKey newDomain (Nodes (RespNode response)) w1)
    as Hfr.
  destruct (registerDomainNodes domainKey newDomain (Nodes (RespNode response)) w1)
    as [domain2 wm2|] eqn:Hwalk2; simpl in Hfr; [|by destruct Hfr].
  destruct (registerDomainNodes_Ok _ _ _ _ _ _ Hwalk2) as [Hdom2 Hwm2].
  rewrite Hc in Hwm2. fold xs in Hwm2.
  assert (domain2 = domain) as -> by congruence.
  assert (wm2 = w1) as ->.
  { rewrite Hwm2. apply setDomains_fixed, putSettings_fixed. intros d e c.
    destruct (negb _ && negb _ && negb _); injection Hw1 as <-; rewrite Hwm; simpl.
    - destruct (decide (domainName = d)) as [<-|Hne].
      + rewrite lookup_insert_eq. intros [= <-]. by rewrite Hdom, config_rebuilt.
      + rewrite lookup_insert_ne by done. apply putSettings_carried.
    - apply putSettings_carried. }
  assert (negb (String.eqb (typ domain) "") && negb (String.eqb (value domain) "")
          && negb (Domain_equals domain (domains w1 !! domainName)) = false) as ->.
  { destruct (negb (String.eqb (typ domain) "") && negb (String.eqb (value domain) "")
              && negb (Domain_equals domain (domains wm !! domainName))) eqn:Htest;
      injection Hw1 as <-; [|done].
    simpl. rewrite lookup_insert_eq, Domain_equals_refl. simpl. apply andb_false_r. }
  simpl. split; [done|]. by intros w2 [= <-].
Qed.

Lemma removeDomainConfiguration_again node w w1 :
  removeDomainConfiguration node w = Ok tt w1 ->
  removeDomainConfiguration node w1 = Ok tt w1.
Proof.
  unfold removeDomainConfiguration, bind, this, at_, deref, ret, raise, update. simpl.
  destruct (MatchString _ _) eqn:Hm.
  2:{ intros [= <-]. by rewrite Hm. }
  destruct (FindStringSubmatch _ _ !! 1%nat) as [g1|] eqn:H1; simpl; [|done].
  destruct (domains w !! g1) as [e|] eqn:He; simpl; [|done].
  destruct (FindStringSubmatch _ _ !! 2%nat) as [g2|] eqn:H2; simpl; [|done].
  destruct (Split g2 slash !! 0%nat) as [k|] eqn:Hk; simpl; [|done].
  intros [= <-]. simpl. rewrite Hm, H1. simpl. rewrite lookup_insert_eq. simpl.
  rewrite H2. simpl. rewrite Hk. simpl. unfold setDomains. simpl.
  rewrite insert_insert_eq. do 3 f_equal.
  unfold setConfig. simpl. destruct (config e); simpl; [|done].
  by rewrite delete_delete_eq.
Qed.

Lemma registerDomain_remove_again node action w w1 :
  action = "delete" \/ action = "expire" ->
  registerDomain node action w = Ok tt w1 ->
  registerDomain node action w1 = Ok tt w1.
Proof.
  intros Hact. rewrite !registerDomain_remove by done.
  destruct (domainOfKey (conf w) (Key node)) as [domainName|] eqn:Hname; [|done].
  destruct (MatchString _ _) eqn:Hm; intros Hrun.
  - assert (conf w1 = conf w) as Hc.
    { destruct (removeDomainConfiguration_cases node w)
        as [H | [[p H] | (d & k & e & _ & H)]]; rewrite H in Hrun; try done;
        by injection Hrun as <-. }
    rewrite Hc, Hname, Hm. by apply (removeDomainConfiguration_again _ w).
  - injection Hrun as <-. simpl. rewrite Hname, Hm.
    unfold setDomains. simpl. by rewrite delete_delete_eq.
Qed.

(** C9.  The same event delivered a second time, the store not having
    changed in between, publishes nothing.  For a domain event the
    second run of the registrar, however it ends, logs nothing, and
    when it returns it has left the state as the first run left it.
    For a service event the second run returns, leaves both registries
    as they were, and logs no line that records a publication. *)
Theorem redelivery_publishes_nothing node action w w1 :
  (registerDomain node action w = Ok tt w1 ->
   glog (finalState (registerDomain node action w1)) = glog w1 /\
   forall w2, registerDomain node action w1 = Ok tt w2 -> w2 = w1) /\
  (registerService' node action w = Ok tt w1 ->
   exists w2 extra,
     registerService' node action w1 = Ok tt w2 /\
     services w2 = services w1 /\ domains w2 = domains w1 /\
     glog w2 = glog w1 ++ extra /\ Forall (fun l => isPublish l = false) extra).
Proof.
  split; [|apply registerService_again].
  intros Hrun.
  destruct (decide (action = "delete")) as [Hd|Hd];
    [|destruct (decide (action = "expire")) as [He|He]].
  - rewrite (registerDomain_remove_again _ _ _ _ (or_introl Hd) Hrun). simpl.
    split; [done|]. by intros w2 [= <-].
  - rewrite (registerDomain_remove_again _ _ _ _ (or_intror He) Hrun). simpl.
    split; [done|]. by intros w2 [= <-].
  - by apply (registerDomain_put_again _ _ w).
Qed.

(** *** Only fully defined Domains in the registry *)

Lemma fullyDefined_kind e e' : kindOf e = kindOf e' -> fullyDefined e -> fullyDefined e'.
Proof. unfold kindOf, fullyDefined. by intros [= -> ->]. Qed.

(** Whatever the event and however the registrar ends, a registry that
    holds only Domains with kind and target still holds only such
    Domains afterwards. *)
Theorem registerDomain_keeps_fully_defined node action w :
  (forall d e, domains w !! d = Some e -> fullyDefined e) ->
  forall d e, domains (finalState (registerDomain node action w)) !! d = Some e ->
              fullyDefined e.
Proof using Type.
  intros Hinv d e.
  assert (forall w' : watcher ServiceConfig,
            (forall d, kindOf <$> domains w' !! d = kindOf <$> domains w !! d) ->
            forall d e, domains w' !! d = Some e -> fullyDefined e) as Hkept.
  { intros w' Hk d' e' He'. specialize (Hk d'). rewrite He' in Hk.
    destruct (domains w !! d') as [e0|] eqn:He0; [|done].
    simpl in Hk. apply (fullyDefined_kind e0); [congruence|by apply (Hinv d')]. }
  destruct (decide (action = "delete" \/ action = "expire")) as [Hact|Hact].
  - rewrite registerDomain_remove by done.
    destruct (domainOfKey (conf w) (Key node)) as [domainName|]; [|apply Hinv].
    destruct (MatchString _ _).
    + destruct (removeDomainConfiguration_cases node w)
        as [-> | [[p ->] | (d0 & k & e0 & He0 & ->)]]; simpl; [apply Hinv..|].
      destruct (decide (d0 = d)) as [->|Hne].
      * rewrite lookup_insert_eq. intros [= <-].
        apply (fullyDefined_kind e0); [done|by apply (Hinv d)].
      * rewrite lookup_insert_ne by done. apply Hinv.
    + simpl. intros He. apply (Hinv d). revert He.
      destruct (decide (domainName = d)) as [->|Hne].
      * by rewrite lookup_delete_eq.
      * by rewrite lookup_delete_ne.
  - assert (action <> "delete") as Hd by (intros E; apply Hact; by left).
    assert (action <> "expire") as He by (intros E; apply Hact; by right).
    rewrite registerDomain_put by done. clear Hd He.
    destruct (domainOfKey (conf w) (Key node)) as [domainName|]; [|apply Hinv].
    destruct (client w _ true false) as [response|]; [|apply Hinv].
    pose proof (registerDomainNodes_frame
                  (domainPrefix (conf w) +:+ "/" +:+ domainName) newDomain
                  (Nodes (RespNode response)) w) as Hfr.
    destruct (registerDomainNodes _ _ _ _) as [domain wm|p wm]; simpl in Hfr;
      destruct Hfr as (_ & _ & _ & _ & Hk); [|by apply Hkept].
    destruct (negb (String.eqb (typ domain) "") && negb (String.eqb (value domain) "")
              && negb (Domain_equals domain (domains wm !! domainName))) eqn:Htest;
      [|by apply Hkept].
    apply publish_test in Htest as [Hfull _]. simpl.
    destruct (decide (domainName = d)) as [->|Hne].
    + rewrite lookup_insert_eq. by intros [= <-].
    + rewrite lookup_insert_ne by done. by apply Hkept.
Qed.

(** *** Strings *)

Lemma append_cons c (a b : string) : String c a +:+ b = String c (a +:+ b).
Proof. reflexivity. Qed.






Lemma trimPrefix_Some (p s rest : string) : trimPrefix p s = Some rest -> s = p +:+ rest.
Proof.
  revert s. induction p as [|c p IH]; intros s; simpl.
  - by intros [= ->].
  - destruct s as [|d s]; [done|].
    destruct (Ascii.eqb_spec c d) as [->|]; [|done].
    intros H. by rewrite append_cons, (IH _ H).
Qed.






Lemma length_afterLine (s : string) : (String.length (afterLine s) <= String.length s)%nat.
Proof.
  induction s as [|c s IH]; simpl; [done|].
  destruct (Ascii.eqb c newline); simpl; lia.
Qed.

(** *** The greedy star over [.] *)





Lemma search_later (r : regex) a (s : string) :
  rmatch r (String a s) ∅ (fun s' caps => Some (<[0%nat := consumed (String a s) s']> caps))
  = None ->
  search r (String a s) = search r s.
Proof. intros H. simpl. by rewrite H. Qed.

(** *** The patterns of the name decoders *)










(** *** Splitting a line into segments *)











(** *** The name decoders on keys *)




(** *** What the registrars leave alone *)

Lemma afterTurn_cases serviceName s w :
  afterTurn serviceName s w = w \/
  (glog (afterTurn serviceName s w) = glog w ++ [registeringLine serviceName s] /\
   instanceAt (afterTurn serviceName s w) serviceName (index s) = Some s /\
   instanceAt w serviceName (index s) <> Some s).
Proof.
  unfold afterTurn, instanceAt.
  destruct (services w !! serviceName) as [cl|] eqn:Hcl.
  - destruct (Service_equals (Get cl (index s)) s) eqn:He; [by left|right].
    simpl. rewrite lookup_insert_eq. simpl. rewrite lookup_insert_eq.
    repeat split. intros Hs. apply Service_equals_true in Hs. unfold Get in He. congruence.
  - right. simpl. rewrite lookup_insert_eq. simpl. by rewrite lookup_insert_eq.
Qed.

Lemma instanceAt_afterTurn_ne serviceName s w i :
  index s <> i ->
  instanceAt (afterTurn serviceName s w) serviceName i = instanceAt w serviceName i.
Proof.
  intros Hne. unfold afterTurn, instanceAt.
  destruct (services w !! serviceName) as [cl|] eqn:Hcl.
  - destruct (Service_equals (Get cl (index s)) s); [by rewrite Hcl|].
    simpl. rewrite lookup_insert_eq. simpl. by rewrite lookup_insert_ne.
  - simpl. rewrite lookup_insert_eq. simpl. rewrite lookup_insert_ne by done.
    apply lookup_empty.
Qed.

(** The loop of the service registrar, however it ends: client,
    configuration and domains are as before, and so is every cluster
    but the one of the service. *)
Lemma registerServiceNodes_frame_all serviceName action (nodes : list Node) w :
  let w' := finalState (registerServiceNodes' serviceName action nodes w) in
  conf w' = conf w /\ client w' = client w /\ domains w' = domains w /\
  forall other, other <> serviceName -> services w' !! other = services w !! other.
Proof.
  revert w. induction nodes as [|n l IH]; intros w; [done|].
  destruct (envIndexOfKey (conf w) (Key n)) as [i|] eqn:Hi;
    [|by rewrite registerServiceNodes_panic].
  destruct (client w (serviceKeyOf (conf w) serviceName i) true true) as [r|] eqn:Hget.
  - destruct (decide (action = "delete")) as [->|Hact].
    + erewrite registerServiceNodes_delete by done. simpl. repeat split.
      intros other Hne. by apply lookup_delete_ne.
    + erewrite registerServiceNodes_turn by done.
      pose proof (IH (afterTurn serviceName
                      (buildService' serviceName i (serviceKeyOf (conf w) serviceName i) r) w))
        as Hrest.
      cbv zeta in *. destruct Hrest as (-> & -> & -> & Ho).
      rewrite conf_afterTurn, client_afterTurn, domains_afterTurn. repeat split.
      intros other Hne. rewrite Ho by done. by apply services_afterTurn_other.
  - erewrite registerServiceNodes_skip by done. apply IH.
Qed.

Lemma registerService_frame_all node action w :
  let w' := finalState (registerService' node action w) in
  conf w' = conf w /\ client w' = client w /\ domains w' = domains w /\
  forall other, envOfKey (conf w) (Key node) <> Some other ->
                services w' !! other = services w !! other.
Proof.
  cbv zeta. unfold registerService, bind. rewrite getEnvForNode_run.
  destruct (envOfKey (conf w) (Key node)) as [serviceName|].
  - unfold this. destruct (client w _ true true) as [root|].
    + destruct (registerServiceNodes_frame_all serviceName action
                  (Nodes (RespNode root)) w) as (Hc & Hcl & Hd & Ho).
      repeat split; try done. intros other Hne. apply Ho. congruence.
    + simpl. by repeat split.
  - simpl. by repeat split.
Qed.

Lemma registerDomain_frame_all node action w :
  let w' := finalState (registerDomain node action w) in
  conf w' = conf w /\ client w' = client w /\ services w' = services w /\
  forall d, domainOfKey (conf w) (Key node) <> Some d ->
            kindOf <$> domains w' !! d = kindOf <$> domains w !! d.
Proof.
  destruct (decide (action = "delete" \/ action = "expire")) as [Hact|Hact].
  - rewrite registerDomain_remove by done. cbv zeta.
    destruct (domainOfKey (conf w) (Key node)) as [domainName|];
      [|simpl; by repeat split].
    destruct (MatchString _ _).
    + destruct (removeDomainConfiguration_cases node w)
        as [-> | [[p ->] | (d0 & k & e0 & He0 & ->)]]; simpl;
        [by repeat split..|].
      repeat split. intros d _. destruct (decide (d0 = d)) as [->|Hne].
      * by rewrite lookup_insert_eq, He0.
      * by rewrite lookup_insert_ne.
    + simpl. repeat split. intros d Hne. rewrite lookup_delete_ne; [done|congruence].
  - assert (action <> "delete") as Hd by (intros E; apply Hact; by left).
    assert (action <> "expire") as He by (intros E; apply Hact; by right).
    rewrite registerDomain_put by done. clear Hd He. cbv zeta.
    destruct (domainOfKey (conf w) (Key node)) as [domainName|];
      [|simpl; by repeat split].
    destruct (client w _ true false) as [response|]; [|simpl; by repeat split].
    pose proof (registerDomainNodes_frame
                  (domainPrefix (conf w) +:+ "/" +:+ domainName) newDomain
                  (Nodes (RespNode response)) w) as Hfr.
    destruct (registerDomainNodes _ _ _ _) as [domain wm|p wm]; simpl in Hfr;
      destruct Hfr as (_ & Hs & Hc & Hcl & Hk); [|simpl; by repeat split].
    destruct (negb _ && negb _ && negb _); simpl; [|by repeat split].
    repeat split; try done. intros d Hne. rewrite lookup_insert_ne; [apply Hk|congruence].
Qed.

(** X4.  The two registrars keep to their own registry.  However it
    ends, [registerDomain] leaves the service registry, the client and
    the configuration as they were, and [registerService] leaves the
    domain registry, the client and the configuration as they were. *)
Theorem registrars_keep_to_their_registry node action w :
  (services (finalState (registerDomain node action w)) = services w /\
   client (finalState (registerDomain node action w)) = client w /\
   conf (finalState (registerDomain node action w)) = conf w) /\
  (domains (finalState (registerService' node action w)) = domains w /\
   client (finalState (registerService' node action w)) = client w /\
   conf (finalState (registerService' node action w)) = conf w).
Proof.
  destruct (registerDomain_frame_all node action w) as (? & ? & ? & _).
  destruct (registerService_frame_all node action w) as (? & ? & ? & _).
  done.
Qed.

(** X5.  One event touches one entity.  Whatever the action and
    however it ends, [registerService] leaves every cluster other than
    the one of the service named by the key as it was, and
    [registerDomain] leaves every Domain other than the one named by the
    key in the registry, with its kind and target (the walk of a put
    may write settings of another Domain). *)
Theorem registrars_touch_one_entity node action w (other : string) :
  (envOfKey (conf w) (Key node) <> Some other ->
   services (finalState (registerService' node action w)) !! other = services w !! other) /\
  (domainOfKey (conf w) (Key node) <> Some other ->
   kindOf <$> domains (finalState (registerDomain node action w)) !! other
   = kindOf <$> domains w !! other).
Proof.
  destruct (registerDomain_frame_all node action w) as (_ & _ & _ & Hd).
  destruct (registerService_frame_all node action w) as (_ & _ & _ & Hs).
  split; [apply Hs|apply Hd].
Qed.

(** *** The action *)

Lemma registerServiceNodes_action serviceName a b (nodes : list Node) w :
  a <> "delete" -> b <> "delete" ->
  registerServiceNodes' serviceName a nodes w = registerServiceNodes' serviceName b nodes w.
Proof.
  intros Ha Hb. revert w. induction nodes as [|n l IH]; intros w; [done|].
  rewrite !registerServiceNodes_cons by done.
  destruct (envIndexOfKey (conf w) (Key n)); [|done].
  destruct (built w serviceName _); apply IH.
Qed.

(** X6.  The registrars look at the action only to tell a removal from
    the rest: [registerDomain] does the same for delete and expire, and
    the same for any two other actions; [registerService] does the same
    for any two actions other than delete, expire among them. *)
Theorem actions_only_tell_removal node (a b : string) w :
  registerDomain node "delete" w = registerDomain node "expire" w /\
  (a <> "delete" -> a <> "expire" -> b <> "delete" -> b <> "expire" ->
   registerDomain node a w = registerDomain node b w) /\
  (a <> "delete" -> b <> "delete" ->
   registerService' node a w = registerService' node b w).
Proof.
  split; [|split].
  - rewrite !registerDomain_remove by auto. done.
  - intros. by rewrite !registerDomain_put.
  - intros Ha Hb. unfold registerService, bind.
    destruct (getEnvForNode node w) as [serviceName w1|]; [|done].
    unfold this. destruct (client w1 _ true true); [|done].
    by apply registerServiceNodes_action.
Qed.

(** *** A delete that finds the subtree readable *)

Lemma registerServiceNodes_delete_removes serviceName (nodes : list Node) w :
  Forall (fun n => is_Some (envIndexOfKey (conf w) (Key n))) nodes ->
  Exists (fun n => exists i, envIndexOfKey (conf w) (Key n) = Some i /\
                     is_Some (client w (serviceKeyOf (conf w) serviceName i) true true))
    nodes ->
  registerServiceNodes' serviceName "delete" nodes w = Ok tt (removed serviceName w).
Proof.
  induction nodes as [|n l IH]; intros Hall Hex; [by apply Exists_nil in Hex|].
  inversion Hall as [|? ? [i Hi] Hl]; subst.
  destruct (client w (serviceKeyOf (conf w) serviceName i) true true) as [r|] eqn:Hget.
  - by apply (registerServiceNodes_delete _ _ _ _ i r).
  - rewrite (registerServiceNodes_skip _ _ _ _ _ i) by done.
    apply IH; [done|].
    apply Exists_cons in Hex as [(j & Hj & Hs)|Hex]; [|done].
    rewrite Hi in Hj. injection Hj as <-. rewrite Hget in Hs. by destruct Hs.
Qed.

(** X7.  A delete under a service whose subtree is still readable
    removes the whole cluster.  When the root key of the service is
    read, the index of every child decodes and the key of at least one
    instance is read, [registerService] with action delete returns,
    takes the cluster of the service out of the registry, logs the
    removal once and leaves every other cluster and the domains alone. *)
Theorem delete_removes_readable_cluster node w serviceName root :
  getEnvForNode node w = Ok serviceName w ->
  client w (servicePrefix (conf w) +:+ "/" +:+ serviceName) true true = Some root ->
  Forall (fun n => is_Some (envIndexOfKey (conf w) (Key n))) (Nodes (RespNode root)) ->
  Exists (fun n => exists i, envIndexOfKey (conf w) (Key n) = Some i /\
                     is_Some (client w (serviceKeyOf (conf w) serviceName i) true true))
    (Nodes (RespNode root)) ->
  exists w',
    registerService' node "delete" w = Ok tt w' /\
    services w' = delete serviceName (services w) /\
    domains w' = domains w /\
    glog w' = glog w ++ [RemovingService serviceName].
Proof.
  intros Hname Hroot Hall Hex. exists (removed serviceName w). split; [|done].
  unfold registerService, bind at 1. rewrite Hname. unfold bind, this. rewrite Hroot.
  by apply registerServiceNodes_delete_removes.
Qed.

(** *** Instances the run does not read *)

Lemma registerServiceNodes_untouched serviceName action (nodes : list Node) w w' i :
  action <> "delete" ->
  registerServiceNodes' serviceName action nodes w = Ok tt w' ->
  (forall n, n ∈ nodes -> envIndexOfKey (conf w) (Key n) = Some i ->
             built w serviceName i = None) ->
  instanceAt w' serviceName i = instanceAt w serviceName i.
Proof.
  intros Hact. revert w. induction nodes as [|n l IH]; intros w Hrun Hun.
  - by injection Hrun as <-.
  - rewrite registerServiceNodes_cons in Hrun by done.
    destruct (envIndexOfKey (conf w) (Key n)) as [j|] eqn:Hj; [|done].
    assert (forall m, m ∈ l -> envIndexOfKey (conf w) (Key m) = Some i ->
                      built w serviceName i = None) as Hl.
    { intros m Hm. apply Hun. by right. }
    destruct (built w serviceName j) as [s|] eqn:Hb; [|by apply IH].
    rewrite (IH _ Hrun).
    + apply instanceAt_afterTurn_ne. rewrite (index_built _ _ _ _ Hb).
      intros ->. rewrite (Hun n) in Hb; [done|by left|done].
    + intros m Hm. rewrite conf_afterTurn, built_afterTurn. by apply Hl.
Qed.

(** X8.  A run of [registerService] that is not a delete changes only
    the instances it reads.  An index under which no child of the root
    key could be read (the instance is gone from the store, or the read
    of its key failed) keeps the entry it had, and so does every index
    of every other cluster. *)
Theorem unread_instances_keep_their_entry node action w w' (serviceName i : string) :
  action <> "delete" ->
  registerService' node action w = Ok tt w' ->
  (forall root n,
     envOfKey (conf w) (Key node) = Some serviceName ->
     client w (servicePrefix (conf w) +:+ "/" +:+ serviceName) true true = Some root ->
     n ∈ Nodes (RespNode root) -> envIndexOfKey (conf w) (Key n) = Some i ->
     client w (serviceKeyOf (conf w) serviceName i) true true = None) ->
  instanceAt w' serviceName i = instanceAt w serviceName i.
Proof.
  intros Hact Hrun Hun.
  destruct (decide (envOfKey (conf w) (Key node) = Some serviceName)) as [Hname|Hname].
  - revert Hrun. unfold registerService, bind at 1. rewrite getEnvForNode_run, Hname.
    unfold bind, this.
    destruct (client w _ true true) as [root|] eqn:Hroot; [|by intros [= <-]].
    intros Hrun. apply (registerServiceNodes_untouched _ _ _ _ _ _ Hact Hrun).
    intros n Hn Hi. unfold built. by rewrite (Hun root n).
  - destruct (registerService_frame_all node action w) as (_ & _ & _ & Ho).
    rewrite Hrun in Ho. simpl in Ho. unfold instanceAt. by rewrite Ho.
Qed.

(** *** Every registration is logged *)

Lemma registerServiceNodes_silent serviceName action (nodes : list Node) w w' :
  action <> "delete" ->
  registerServiceNodes' serviceName action nodes w = Ok tt w' ->
  (length (glog w) <= length (glog w'))%nat /\ (glog w' = glog w -> w' = w).
Proof.
  intros Hact. revert w. induction nodes as [|n l IH]; intros w Hrun.
  - by injection Hrun as <-.
  - rewrite registerServiceNodes_cons in Hrun by done.
    destruct (envIndexOfKey (conf w) (Key n)) as [j|]; [|done].
    destruct (built w serviceName j) as [s|]; [|by apply IH].
    destruct (IH _ Hrun) as [Hlen Hsame].
    destruct (afterTurn_cases serviceName s w) as [Hw|(Hlog & _)].
    + rewrite Hw in *. done.
    + rewrite Hlog, length_app in Hlen. simpl in Hlen. split; [lia|].
      intros Heq. rewrite Heq in Hlen. lia.
Qed.

(** X9.  [registerService] registers nothing in silence: when a run
    that is not a delete returns and has logged nothing, it has left
    the whole state, the service registry included, as it was. *)
Theorem silent_service_run_changes_nothing node action w w' :
  action <> "delete" ->
  registerService newServiceConfig unmarshalServiceConfig unmarshalLocation node action w
  = Ok tt w' ->
  glog w' = glog w -> w' = w.
Proof.
  intros Hact. unfold registerService, bind at 1. rewrite getEnvForNode_run.
  destruct (envOfKey (conf w) (Key node)) as [serviceName|]; [|done].
  unfold bind, this.
  destruct (client w _ true true) as [root|].
  - intros Hrun. by apply (registerServiceNodes_silent _ _ _ _ _ Hact Hrun).
  - intros [= <-]. simpl. intros Heq. apply (f_equal length) in Heq.
    rewrite length_app in Heq. simpl in Heq. lia.
Qed.

(** *** A published Domain *)

(** X10.  A Domain is published without settings.  Whenever a put
    makes [registerDomain] log a registration, the Domain now registered
    under the name of the key carries the kind and target of the log
    line and a nil settings map: the settings the previous entry had,
    and those the walk has just written to it, are gone with it. *)
Theorem published_domain_has_no_settings node action w w' :
  action <> "delete" -> action <> "expire" ->
  registerDomain node action w = Ok tt w' ->
  glog w' <> glog w ->
  exists domainName d,
    domainOfKey (conf w) (Key node) = Some domainName /\
    domains w' !! domainName = Some d /\ config d = None /\
    fullyDefined d /\
    glog w' = glog w ++ [RegisteredDomain domainName (typ d) (value d)].
Proof.
  intros Hdel Hexp. rewrite registerDomain_put by done.
  destruct (domainOfKey (conf w) (Key node)) as [domainName|]; [|done].
  destruct (client w _ true false) as [response|]; [|by intros [= <-]].
  pose proof (registerDomainNodes_frame
                (domainPrefix (conf w) +:+ "/" +:+ domainName) newDomain
                (Nodes (RespNode response)) w) as Hfr.
  destruct (registerDomainNodes _ _ _ _) as [domain wm|] eqn:Hwalk; [|done].
  simpl in Hfr. destruct Hfr as (Hlog & _).
  destruct (registerDomainNodes_Ok _ _ _ _ _ _ Hwalk) as [Hdom _].
  destruct (negb (String.eqb (typ domain) "") && negb (String.eqb (value domain) "")
            && negb (Domain_equals domain (domains wm !! domainName))) eqn:Htest.
  - apply publish_test in Htest as [Hfull _].
    intros [= <-] _. exists domainName, domain. simpl. rewrite lookup_insert_eq, Hlog.
    split; [done|]. split; [done|]. split; [by rewrite Hdom, config_rebuilt|]. done.
  - intros [= <-] Hne. by rewrite Hlog in Hne.
Qed.

(** *** Folding over a directory listing *)

(** A field that no node of the listing changes is left as it was. *)
Lemma foldl_field_neutral {S B} (step : S -> Node -> S) (f : S -> B) (nodes : list Node) :
  (forall n, n ∈ nodes -> forall s, f (step s n) = f s) ->
  forall s0, f (foldl step s0 nodes) = f s0.
Proof.
  induction nodes as [|n l IH]; intros Hn s0; simpl; [done|].
  rewrite IH; [apply Hn; by left|]. intros m Hm. apply Hn. by right.
Qed.

(** A field that only the node under one key sets, in a listing without
    duplicate keys, has the value that node gives it. *)
Lemma foldl_field_set {S B} (step : S -> Node -> S) (f : S -> B)
    (nodes : list Node) node b :
  NoDup (Key <$> nodes) -> node ∈ nodes ->
  (forall n s, Key n <> Key node -> f (step s n) = f s) ->
  (forall s, f (step s node) = b) ->
  forall s0, f (foldl step s0 nodes) = b.
Proof.
  intros Hnd Hin Hother Hset s0.
  apply list_elem_of_split in Hin as (pre & post & ->).
  destruct (NoDup_keys_others _ _ _ Hnd) as [_ Hpost].
  rewrite foldl_app. simpl.
  rewrite foldl_field_neutral; [apply Hset|].
  intros n Hn s. apply Hother. by apply (proj1 (Forall_forall _ _) Hpost).
Qed.

(** *** The fields of a built Service *)

Lemma serviceConfigNodes_fields configKey (subNodes : list Node) (s : Service ServiceConfig) :
  let s' := foldl (serviceConfigNode unmarshalServiceConfig configKey) s subNodes in
  index s' = index s /\ nodeKey s' = nodeKey s /\ name s' = name s /\
  location s' = location s /\ domain s' = domain s /\ status s' = status s.
Proof.
  revert s. induction subNodes as [|n l IH]; intros s; simpl; [done|].
  destruct (IH (serviceConfigNode unmarshalServiceConfig configKey s n))
    as (-> & -> & -> & -> & -> & ->).
  unfold serviceConfigNode. destruct (String.eqb _ _); [|done].
  by destruct (unmarshalServiceConfig _).
Qed.

Lemma serviceStatusNodes_fields statusKey (subNodes : list Node) (s : Service ServiceConfig) :
  let s' := foldl (serviceStatusNode statusKey) s subNodes in
  index s' = index s /\ nodeKey s' = nodeKey s /\ name s' = name s /\
  location s' = location s /\ domain s' = domain s /\ sconfig s' = sconfig s /\
  status s' = (fun st => foldl (statusLeaf statusKey) st subNodes) <$> status s.
Proof.
  revert s. induction subNodes as [|n l IH]; intros s; simpl.
  - repeat split; by destruct (status s).
  - destruct (IH (serviceStatusNode statusKey s n))
      as (-> & -> & -> & -> & -> & -> & ->).
    unfold serviceStatusNode, statusLeaf.
    destruct (String.eqb (Key n) (statusKey +:+ "/alive")).
    { repeat split; by destruct (status s). }
    destruct (String.eqb (Key n) (statusKey +:+ "/current")).
    { repeat split; by destruct (status s). }
    destruct (String.eqb (Key n) (statusKey +:+ "/expected")).
    { repeat split; by destruct (status s). }
    repeat split; by destruct (status s).
Qed.

(** What a node does to the Service being built, by its key. *)
Lemma serviceNode_by_key serviceKey (s : Service ServiceConfig) node :
  let s' := serviceNode unmarshalServiceConfig unmarshalLocation serviceKey s node in
  (index s' = index s /\ nodeKey s' = nodeKey s /\ name s' = name s) /\
  (Key node <> serviceKey +:+ "/domain" -> domain s' = domain s) /\
  (Key node = serviceKey +:+ "/domain" -> domain s' = Value node) /\
  (Key node <> serviceKey +:+ "/status" -> status s' = status s) /\
  (Key node = serviceKey +:+ "/status" ->
   status s' = Some (foldl (statusLeaf (serviceKey +:+ "/status")) newStatus (Nodes node))) /\
  (Key node <> serviceKey +:+ "/config" -> sconfig s' = sconfig s) /\
  (Key node = serviceKey +:+ "/config" ->
   sconfig s' = sconfig (foldl (serviceConfigNode unmarshalServiceConfig
                                  (serviceKey +:+ "/config")) s (Nodes node))).
Proof.
  cbv zeta. unfold serviceNode.
  destruct (String.eqb_spec (Key node) (serviceKey +:+ "/location")) as [Hk|Hn1].
  { rewrite Hk. assert (forall t, t <> "/location" ->
                                serviceKey +:+ "/location" <> serviceKey +:+ t) as Hne.
    { intros t Ht E. by apply append_inj_r in E. }
    destruct (unmarshalLocation (Value node)); simpl; repeat split; try done;
      intros E; by apply Hne in E. }
  destruct (String.eqb_spec (Key node) (serviceKey +:+ "/config")) as [Hk|Hn2].
  { rewrite Hk. assert (forall t, t <> "/config" ->
                                serviceKey +:+ "/config" <> serviceKey +:+ t) as Hne.
    { intros t Ht E. by apply append_inj_r in E. }
    destruct (serviceConfigNodes_fields (serviceKey +:+ "/config") (Nodes node) s)
      as (-> & -> & -> & _ & -> & ->).
    repeat split; try done; intros E; by apply Hne in E. }
  destruct (String.eqb_spec (Key node) (serviceKey +:+ "/domain")) as [Hk|Hn3].
  { rewrite Hk. assert (forall t, t <> "/domain" ->
                                serviceKey +:+ "/domain" <> serviceKey +:+ t) as Hne.
    { intros t Ht E. by apply append_inj_r in E. }
    simpl. repeat split; try done; intros E; by apply Hne in E. }
  destruct (String.eqb_spec (Key node) (serviceKey +:+ "/status")) as [Hk|Hk].
  { rewrite Hk. assert (forall t, t <> "/status" ->
                                serviceKey +:+ "/status" <> serviceKey +:+ t) as Hne.
    { intros t Ht E. by apply append_inj_r in E. }
    destruct (serviceStatusNodes_fields (serviceKey +:+ "/status") (Nodes node)
                (setStatus (Some newStatus) s)) as (-> & -> & -> & _ & -> & -> & ->).
    simpl. repeat split; try done; intros E; by apply Hne in E. }
  repeat split; try done; intros E; contradiction.
Qed.

Lemma statusLeaf_by_key statusKey st leaf :
  let st' := statusLeaf statusKey st leaf in
  (Key leaf <> statusKey +:+ "/alive" -> alive st' = alive st) /\
  (Key leaf = statusKey +:+ "/alive" -> alive st' = Value leaf) /\
  (Key leaf <> statusKey +:+ "/current" -> current st' = current st) /\
  (Key leaf = statusKey +:+ "/current" -> current st' = Value leaf) /\
  (Key leaf <> statusKey +:+ "/expected" -> expected st' = expected st) /\
  (Key leaf = statusKey +:+ "/expected" -> expected st' = Value leaf).
Proof.
  cbv zeta. unfold statusLeaf.
  destruct (String.eqb_spec (Key leaf) (statusKey +:+ "/alive")) as [Hk|Hn1].
  { rewrite Hk. simpl. repeat split; try done; intros E; by apply append_inj_r in E. }
  destruct (String.eqb_spec (Key leaf) (statusKey +:+ "/current")) as [Hk|Hn2].
  { rewrite Hk. simpl. repeat split; try done; intros E; by apply append_inj_r in E. }
  destruct (String.eqb_spec (Key leaf) (statusKey +:+ "/expected")) as [Hk|Hn3].
  { rewrite Hk. simpl. repeat split; try done; intros E; by apply append_inj_r in E. }
  repeat split; try done; intros E; contradiction.
Qed.

Lemma serviceConfigNode_by_key configKey (s : Service ServiceConfig) leaf :
  let s' := serviceConfigNode unmarshalServiceConfig configKey s leaf in
  (Key leaf <> configKey +:+ "/gogeta" -> sconfig s' = sconfig s) /\
  (Key leaf = configKey +:+ "/gogeta" ->
   sconfig s' = default (sconfig s) (unmarshalServiceConfig (Value leaf))).
Proof.
  cbv zeta. unfold serviceConfigNode.
  destruct (String.eqb_spec (Key leaf) (configKey +:+ "/gogeta")) as [Hk|Hn].
  - split; [done|]. intros _. by destruct (unmarshalServiceConfig _).
  - split; [done|]. intros E. contradiction.
Qed.

(** X11.  The identity of a built Service and its domain.  Whatever the
    read of the instance's key returns, the Service built from it
    carries the name, the index and the key it was built for.  Its bound
    domain is the value of the [domain] leaf of the listing (a listing
    holds no key twice), and the empty string when there is no such
    leaf. *)
Theorem built_service_identity_and_domain serviceName serviceIndex serviceKey response :
  let s := buildService newServiceConfig unmarshalServiceConfig unmarshalLocation
             serviceName serviceIndex serviceKey response in
  (index s = serviceIndex /\ nodeKey s = serviceKey /\ name s = serviceName) /\
  (NoDup (Key <$> Nodes (RespNode response)) ->
   forall node, node ∈ Nodes (RespNode response) ->
                Key node = serviceKey +:+ "/domain" -> domain s = Value node) /\
  ((forall node, node ∈ Nodes (RespNode response) ->
                 Key node <> serviceKey +:+ "/domain") -> domain s = "").
Proof.
  cbv zeta. unfold buildService. split; [|split].
  - rewrite (foldl_field_neutral _ (fun s => index s = serviceIndex /\
                                     nodeKey s = serviceKey /\ name s = serviceName));
      [done|].
    intros n _ s. destruct (serviceNode_by_key serviceKey s n) as ((-> & -> & ->) & _).
    done.
  - intros Hnd node Hin Hk.
    apply (foldl_field_set _ domain _ node); [done|done| |].
    + intros n s Hn. apply (serviceNode_by_key serviceKey s n). congruence.
    + intros s. by apply (serviceNode_by_key serviceKey s node).
  - intros Habs. rewrite (foldl_field_neutral _ domain); [done|].
    intros n Hn s. apply (serviceNode_by_key serviceKey s n). by apply Habs.
Qed.

(** X12.  The status of a built Service.  Without a [status] node in
    the listing the Service has no Status.  With one, it has a Status
    whose alive, current and expected fields are the values of the
    leaves of those names under the status directory, and the empty
    string where the leaf is missing (listings hold no key twice). *)
Theorem built_service_status serviceName serviceIndex serviceKey response :
  let s := buildService' serviceName serviceIndex serviceKey response in
  let statusKey := serviceKey +:+ "/status" in
  ((forall node, node ∈ Nodes (RespNode response) -> Key node <> statusKey) ->
   status s = None) /\
  (NoDup (Key <$> Nodes (RespNode response)) ->
   forall node, node ∈ Nodes (RespNode response) -> Key node = statusKey ->
   exists st,
     status s = Some st /\
     (NoDup (Key <$> Nodes node) ->
      forall leaf, leaf ∈ Nodes node ->
        (Key leaf = statusKey +:+ "/alive" -> alive st = Value leaf) /\
        (Key leaf = statusKey +:+ "/current" -> current st = Value leaf) /\
        (Key leaf = statusKey +:+ "/expected" -> expected st = Value leaf)) /\
     ((forall leaf, leaf ∈ Nodes node -> Key leaf <> statusKey +:+ "/alive") ->
      alive st = "") /\
     ((forall leaf, leaf ∈ Nodes node -> Key leaf <> statusKey +:+ "/current") ->
      current st = "") /\
     ((forall leaf, leaf ∈ Nodes node -> Key leaf <> statusKey +:+ "/expected") ->
      expected st = "")).
Proof.
  cbv zeta. unfold buildService. split.
  - intros Habs. rewrite (foldl_field_neutral _ status); [done|].
    intros n Hn s. apply (serviceNode_by_key serviceKey s n). by apply Habs.
  - intros Hnd node Hin Hk.
    exists (foldl (statusLeaf (serviceKey +:+ "/status")) newStatus (Nodes node)).
    split; [|split; [|split; [|split]]].
    + apply (foldl_field_set _ status _ node); [done|done| |].
      * intros n s Hn. apply (serviceNode_by_key serviceKey s n). congruence.
      * intros s. by apply (serviceNode_by_key serviceKey s node).
    + intros Hnd' leaf Hleaf. split; [|split]; intros Hl.
      * apply (foldl_field_set _ alive _ leaf); [done|done| |].
        -- intros n st Hn. apply (statusLeaf_by_key _ st n). congruence.
        -- intros st. by apply (statusLeaf_by_key _ st leaf).
      * apply (foldl_field_set _ current _ leaf); [done|done| |].
        -- intros n st Hn. apply (statusLeaf_by_key _ st n). congruence.
        -- intros st. by apply (statusLeaf_by_key _ st leaf).
      * apply (foldl_field_set _ expected _ leaf); [done|done| |].
        -- intros n st Hn. apply (statusLeaf_by_key _ st n). congruence.
        -- intros st. by apply (statusLeaf_by_key _ st leaf).
    + intros Habs. rewrite (foldl_field_neutral _ alive); [done|].
      intros n Hn st. apply (statusLeaf_by_key _ st n). by apply Habs.
    + intros Habs. rewrite (foldl_field_neutral _ current); [done|].
      intros n Hn st. apply (statusLeaf_by_key _ st n). by apply Habs.
    + intros Habs. rewrite (foldl_field_neutral _ expected); [done|].
      intros n Hn st. apply (statusLeaf_by_key _ st n). by apply Habs.
Qed.

(** X13.  The configuration of a built Service.  It is the value
    decoded from the [gogeta] leaf of the [config] directory; it stays
    the fresh [&ServiceConfig{}] when that leaf does not decode, when
    the directory has no such leaf and when the listing has no [config]
    directory (listings hold no key twice). *)
Theorem built_service_config serviceName serviceIndex serviceKey response :
  let s := buildService' serviceName serviceIndex serviceKey response in
  let configKey := serviceKey +:+ "/config" in
  ((forall node, node ∈ Nodes (RespNode response) -> Key node <> configKey) ->
   sconfig s = newServiceConfig) /\
  (NoDup (Key <$> Nodes (RespNode response)) ->
   forall node, node ∈ Nodes (RespNode response) -> Key node = configKey ->
     ((forall leaf, leaf ∈ Nodes node -> Key leaf <> configKey +:+ "/gogeta") ->
      sconfig s = newServiceConfig) /\
     (NoDup (Key <$> Nodes node) ->
      forall leaf, leaf ∈ Nodes node -> Key leaf = configKey +:+ "/gogeta" ->
        sconfig s = default newServiceConfig (unmarshalServiceConfig (Value leaf)))).
Proof.
  cbv zeta. unfold buildService. split.
  - intros Habs. rewrite (foldl_field_neutral _ sconfig); [done|].
    intros n Hn s. apply (serviceNode_by_key serviceKey s n). by apply Habs.
  - intros Hnd node Hin Hk.
    assert (forall (g : ServiceConfig -> ServiceConfig),
              (forall s0 : Service ServiceConfig,
                 sconfig (foldl (serviceConfigNode unmarshalServiceConfig
                                   (serviceKey +:+ "/config")) s0 (Nodes node))
                 = g (sconfig s0)) ->
              (forall c, g (g c) = g c) ->
              sconfig (foldl (serviceNode unmarshalServiceConfig unmarshalLocation
                                serviceKey)
                         {| index := serviceIndex; nodeKey := serviceKey;
                            name := serviceName; location := newLocation;
                            sconfig := newServiceConfig; domain := "";
                            status := None |} (Nodes (RespNode response)))
              = g newServiceConfig) as Hfold.
    { intros g Hg Hidem.
      apply list_elem_of_split in Hin as (pre & post & Heq).
      rewrite Heq in Hnd |- *.
      destruct (NoDup_keys_others _ _ _ Hnd) as [Hpre Hpost].
      rewrite foldl_app. simpl.
      rewrite (foldl_field_neutral _ sconfig).
      2:{ intros n Hn s. apply (serviceNode_by_key serviceKey s n).
          rewrite <- Hk. by apply (proj1 (Forall_forall _ _) Hpost). }
      rewrite (proj2 (proj2 (proj2 (proj2 (proj2 (proj2
                 (serviceNode_by_key serviceKey _ node)))))) Hk), Hg.
      rewrite (foldl_field_neutral _ sconfig); [done|].
      intros n Hn s. apply (serviceNode_by_key serviceKey s n).
      rewrite <- Hk. by apply (proj1 (Forall_forall _ _) Hpre). }
    split.
    + intros Habs. apply (Hfold (fun c => c)); [|done].
      intros s0. rewrite (foldl_field_neutral _ sconfig); [done|].
      intros n Hn s. apply (serviceConfigNode_by_key _ s n). by apply Habs.
    + intros Hnd' leaf Hleaf Hl.
      apply (Hfold (fun c => default c (unmarshalServiceConfig (Value leaf)))).
      * intros s0. apply list_elem_of_split in Hleaf as (pre & post & Heq).
        rewrite Heq in Hnd' |- *.
        destruct (NoDup_keys_others _ _ _ Hnd') as [Hpre Hpost].
        rewrite foldl_app. simpl.
        rewrite (foldl_field_neutral _ sconfig).
        2:{ intros n Hn s. apply (serviceConfigNode_by_key _ s n).
            rewrite <- Hl. by apply (proj1 (Forall_forall _ _) Hpost). }
        rewrite (proj2 (serviceConfigNode_by_key _ _ leaf) Hl).
        rewrite (foldl_field_neutral _ sconfig); [done|].
        intros n Hn s. apply (serviceConfigNode_by_key _ s n).
        rewrite <- Hl. by apply (proj1 (Forall_forall _ _) Hpre).
      * intros c. by destruct (unmarshalServiceConfig (Value leaf)).
Qed.

(** *** The leaves of a rebuilt Domain *)

Lemma scanNode_by_key domainKey (d : Domain) node :
  let d' := scanNode domainKey d node in
  config d' = config d /\
  (Key node <> domainKey +:+ "/type" -> typ d' = typ d) /\
  (Key node = domainKey +:+ "/type" -> typ d' = Value node) /\
  (Key node <> domainKey +:+ "/value" -> value d' = value d) /\
  (Key node = domainKey +:+ "/value" -> value d' = Value node).
Proof.
  cbv zeta. unfold scanNode.
  destruct (String.eqb_spec (Key node) (domainKey +:+ "/type")) as [Hk|Hn1].
  { rewrite Hk. simpl. repeat split; try done; intros E; by apply append_inj_r in E. }
  destruct (String.eqb_spec (Key node) (domainKey +:+ "/value")) as [Hk|Hn2].
  { rewrite Hk. simpl. repeat split; try done; intros E; by apply append_inj_r in E. }
  repeat split; try done; intros E; contradiction.
Qed.

(** X14.  The kind and target of a rebuilt Domain.  The walk over the
    children of a domain's root, when it returns, yields a Domain whose
    kind is the value of the [type] child and whose target is the value
    of the [value] child, each the empty string when the child is
    missing (a listing holds no key twice); its settings map is nil,
    whatever the children. *)
Theorem rebuilt_domain_from_leaves domainKey (nodes : list Node) w domain wm :
  registerDomainNodes domainKey newDomain nodes w = Ok domain wm ->
  config domain = None /\
  (NoDup (Key <$> nodes) ->
   forall node, node ∈ nodes ->
     (Key node = domainKey +:+ "/type" -> typ domain = Value node) /\
     (Key node = domainKey +:+ "/value" -> value domain = Value node)) /\
  ((forall node, node ∈ nodes -> Key node <> domainKey +:+ "/type") -> typ domain = "") /\
  ((forall node, node ∈ nodes -> Key node <> domainKey +:+ "/value") -> value domain = "").
Proof using Type.
  intros Hwalk. destruct (registerDomainNodes_Ok _ _ _ _ _ _ Hwalk) as [-> _].
  split; [apply config_rebuilt|]. split; [|split].
  - intros Hnd node Hin. split; intros Hk.
    + apply (foldl_field_set _ typ _ node); [done|done| |].
      * intros n d Hn. apply (scanNode_by_key domainKey d n). congruence.
      * intros d. by apply (scanNode_by_key domainKey d node).
    + apply (foldl_field_set _ value _ node); [done|done| |].
      * intros n d Hn. apply (scanNode_by_key domainKey d n). congruence.
      * intros d. by apply (scanNode_by_key domainKey d node).
  - intros Habs. rewrite (foldl_field_neutral _ typ); [done|].
    intros n Hn d. apply (scanNode_by_key domainKey d n). by apply Habs.
  - intros Habs. rewrite (foldl_field_neutral _ value); [done|].
    intros n Hn d. apply (scanNode_by_key domainKey d n). by apply Habs.
Qed.

(** *** The initial load *)

Lemma registerService_holds node action w w1 serviceName root n i s :
  action <> "delete" ->
  registerService' node action w = Ok tt w1 ->
  envOfKey (conf w) (Key node) = Some serviceName ->
  client w (servicePrefix (conf w) +:+ "/" +:+ serviceName) true true = Some root ->
  n ∈ Nodes (RespNode root) -> envIndexOfKey (conf w) (Key n) = Some i ->
  built w serviceName i = Some s -> holds w1 serviceName s.
Proof.
  intros Hact Hrun Hname Hroot Hn Hi Hb. revert Hrun.
  unfold registerService, bind at 1. rewrite getEnvForNode_run, Hname.
  unfold bind, this. rewrite Hroot. intros Hrun.
  by apply (registerServiceNodes_holds _ _ _ _ _ n i s Hact Hrun).
Qed.

Lemma registerService_keeps node action w w1 serviceName i s :
  action <> "delete" ->
  registerService' node action w = Ok tt w1 ->
  built w serviceName i = Some s -> holds w serviceName s -> holds w1 serviceName s.
Proof.
  intros Hact Hrun Hb Hh.
  destruct (decide (envOfKey (conf w) (Key node) = Some serviceName)) as [Hname|Hname].
  - revert Hrun. unfold registerService, bind at 1. rewrite getEnvForNode_run, Hname.
    unfold bind, this.
    destruct (client w _ true true) as [root|]; [|by intros [= <-]].
    intros Hrun. by apply (registerServiceNodes_keeps _ _ _ _ _ i s Hact Hrun).
  - destruct (registerService_frame_all node action w) as (_ & _ & _ & Ho).
    rewrite Hrun in Ho. simpl in Ho. unfold holds in *. by rewrite Ho.
Qed.

Lemma forEach_cons (f : Node -> M ServiceConfig unit) n (rest : list Node) w w' :
  forEach (n :: rest) f w = Ok tt w' ->
  exists w1, f n w = Ok tt w1 /\ forEach rest f w1 = Ok tt w'.
Proof.
  simpl. unfold bind. destruct (f n w) as [[] w1|]; [|done]. eauto.
Qed.

Lemma forEach_services_keeps action (nodes : list Node) w w' serviceName i s :
  action <> "delete" ->
  forEach nodes (fun n => registerService' n action) w = Ok tt w' ->
  built w serviceName i = Some s -> holds w serviceName s ->
  holds w' serviceName s /\ conf w' = conf w /\ client w' = client w.
Proof.
  intros Hact. revert w. induction nodes as [|c l IH]; intros w Hrun Hb Hh.
  - by injection Hrun as <-.
  - apply forEach_cons in Hrun as (w1 & Hc & Hrest).
    destruct (registerService_frame _ _ _ _ Hc) as (Hconf & Hcl & _).
    destruct (IH w1 Hrest) as (? & -> & ->); [| |done].
    + unfold built in *. by rewrite Hconf, Hcl.
    + by apply (registerService_keeps _ _ _ _ _ i s Hact Hc).
Qed.

Lemma forEach_services_frame action (nodes : list Node) w w' :
  forEach nodes (fun n => registerService' n action) w = Ok tt w' ->
  conf w' = conf w /\ client w' = client w.
Proof.
  revert w. induction nodes as [|c l IH]; intros w Hrun.
  - by injection Hrun as <-.
  - apply forEach_cons in Hrun as (w1 & Hc & Hrest).
    destruct (registerService_frame _ _ _ _ Hc) as (Hconf & Hcl & _).
    destruct (IH w1 Hrest) as (-> & ->). done.
Qed.

(** X15.  The initial load of the services.  When [loadPrefix] with
    the service registrar returns, the read of the directory not
    reporting a delete, every instance that the store held readable
    under any of the services listed is registered, in the cluster of
    its service and under its index, as built from the store. *)
Theorem initial_load_registers_instances etcDir w w' top child serviceName root n i s :
  loadPrefix etcDir registerService' w = Ok tt w' ->
  client w etcDir true true = Some top -> Action top <> "delete" ->
  child ∈ Nodes (RespNode top) ->
  envOfKey (conf w) (Key child) = Some serviceName ->
  client w (servicePrefix (conf w) +:+ "/" +:+ serviceName) true true = Some root ->
  n ∈ Nodes (RespNode root) -> envIndexOfKey (conf w) (Key n) = Some i ->
  built w serviceName i = Some s ->
  holds w' serviceName s.
Proof.
  intros Hrun Htop Hact Hchild Hname Hroot Hn Hi Hb. revert Hrun.
  unfold loadPrefix, bind, this. rewrite Htop.
  generalize (Nodes (RespNode top)) Hchild. clear Hchild Htop.
  intros nodes. revert w Hname Hroot Hi Hb.
  induction nodes as [|c l IH]; intros w Hname Hroot Hi Hb Hchild Hrun.
  - by apply elem_of_nil in Hchild.
  - apply forEach_cons in Hrun as (w1 & Hc & Hrest).
    destruct (registerService_frame _ _ _ _ Hc) as (Hconf & Hcl & _).
    assert (built w1 serviceName i = Some s) as Hb1.
    { unfold built in *. by rewrite Hconf, Hcl. }
    apply elem_of_cons in Hchild as [->|Hchild].
    + apply (forEach_services_keeps _ _ _ _ _ i s Hact Hrest Hb1).
      by apply (registerService_holds _ _ _ _ _ _ _ _ _ Hact Hc Hname Hroot Hn Hi).
    + apply (IH w1); try done; by rewrite Hconf, ?Hcl.
Qed.

Lemma Domain_equals_true domain (actual : option Domain) :
  Domain_equals domain actual = true <-> kindOf <$> actual = Some (kindOf domain).
Proof.
  unfold Domain_equals, kindOf. destruct actual as [o|]; simpl; [|done].
  rewrite andb_true_iff, !String.eqb_eq. split.
  - by intros [-> ->].
  - by intros [= -> ->].
Qed.

Lemma registerDomain_registers node action w w1 domainName response :
  action <> "delete" -> action <> "expire" ->
  registerDomain node action w = Ok tt w1 ->
  domainOfKey (conf w) (Key node) = Some domainName ->
  client w (domainPrefix (conf w) +:+ "/" +:+ domainName) true false = Some response ->
  fullyDefined (rebuiltDomain (domainPrefix (conf w) +:+ "/" +:+ domainName)
                  (Nodes (RespNode response))) ->
  kindOf <$> domains w1 !! domainName
  = Some (kindOf (rebuiltDomain (domainPrefix (conf w) +:+ "/" +:+ domainName)
                    (Nodes (RespNode response)))).
Proof.
  intros Hdel Hexp Hrun Hname Hget Hfull. revert Hrun.
  rewrite registerDomain_put, Hname, Hget by done.
  destruct (registerDomainNodes _ _ _ _) as [domain wm|] eqn:Hwalk; [|done].
  destruct (registerDomainNodes_Ok _ _ _ _ _ _ Hwalk) as [Hdom _].
  fold (rebuiltDomain (domainPrefix (conf w) +:+ "/" +:+ domainName)
          (Nodes (RespNode response))) in Hdom. rewrite <- Hdom in *.
  destruct (negb (String.eqb (typ domain) "") && negb (String.eqb (value domain) "")
            && negb (Domain_equals domain (domains wm !! domainName))) eqn:Htest.
  - intros [= <-]. simpl. by rewrite lookup_insert_eq.
  - intros [= <-]. apply Domain_equals_true.
    destruct (Domain_equals domain (domains wm !! domainName)) eqn:He; [done|].
    exfalso. destruct Hfull as [Ht Hv]. apply String.eqb_neq in Ht, Hv.
    by rewrite Ht, Hv in Htest.
Qed.

Lemma registerDomain_keeps_kind node action w w1 (d : string) (k : string * string) :
  action <> "delete" -> action <> "expire" ->
  registerDomain node action w = Ok tt w1 ->
  (forall response,
     domainOfKey (conf w) (Key node) = Some d ->
     client w (domainPrefix (conf w) +:+ "/" +:+ d) true false = Some response ->
     k = kindOf (rebuiltDomain (domainPrefix (conf w) +:+ "/" +:+ d)
                   (Nodes (RespNode response)))) ->
  kindOf <$> domains w !! d = Some k -> kindOf <$> domains w1 !! d = Some k.
Proof.
  intros Hdel Hexp Hrun Hk Hd.
  destruct (decide (domainOfKey (conf w) (Key node) = Some d)) as [Hname|Hname].
  - revert Hrun. rewrite registerDomain_put, Hname by done.
    destruct (client w _ true false) as [response|] eqn:Hget; [|by intros [= <-]].
    pose proof (registerDomainNodes_frame
                  (domainPrefix (conf w) +:+ "/" +:+ d) newDomain
                  (Nodes (RespNode response)) w) as Hfr.
    destruct (registerDomainNodes _ _ _ _) as [domain wm|] eqn:Hwalk; [|done].
    simpl in Hfr. destruct Hfr as (_ & _ & _ & _ & Hkind).
    destruct (registerDomainNodes_Ok _ _ _ _ _ _ Hwalk) as [Hdom _].
    assert (Domain_equals domain (domains wm !! d) = true) as ->.
    { apply Domain_equals_true. rewrite Hkind, Hd, (Hk response), Hdom by done. done. }
    rewrite andb_false_r. intros [= <-]. by rewrite Hkind.
  - destruct (registerDomain_frame_all node action w) as (_ & _ & _ & Ho).
    rewrite Hrun in Ho. simpl in Ho. by rewrite Ho.
Qed.

(** X16.  The initial load of the domains.  When [loadPrefix] with the
    domain registrar returns, the read of the directory reporting
    neither a delete nor an expire, every domain listed whose root key
    is read with a non-empty kind and target is registered with that
    kind and target. *)
Theorem initial_load_registers_domains etcDir w w' top child domainName response :
  loadPrefix etcDir registerDomain w = Ok tt w' ->
  client w etcDir true true = Some top ->
  Action top <> "delete" -> Action top <> "expire" ->
  child ∈ Nodes (RespNode top) ->
  domainOfKey (conf w) (Key child) = Some domainName ->
  client w (domainPrefix (conf w) +:+ "/" +:+ domainName) true false = Some response ->
  fullyDefined (rebuiltDomain (domainPrefix (conf w) +:+ "/" +:+ domainName)
                  (Nodes (RespNode response))) ->
  kindOf <$> domains w' !! domainName
  = Some (kindOf (rebuiltDomain (domainPrefix (conf w) +:+ "/" +:+ domainName)
                    (Nodes (RespNode response)))).
Proof using Type.
  intros Hrun Htop Hdel Hexp Hchild Hname Hget Hfull. revert Hrun.
  unfold loadPrefix, bind, this. rewrite Htop.
  set (k := kindOf _).
  assert (forall (nodes : list Node) w0 w1,
            conf w0 = conf w -> client w0 = client w ->
            forEach nodes (fun n => registerDomain n (Action top)) w0 = Ok tt w1 ->
            (kindOf <$> domains w0 !! domainName = Some k ->
             kindOf <$> domains w1 !! domainName = Some k) /\
            conf w1 = conf w /\ client w1 = client w) as Hkeeps.
  { induction nodes as [|c l IH]; intros w0 w1 Hc0 Hcl0 Hrun.
    - by injection Hrun as <-.
    - apply forEach_cons in Hrun as (w2 & Hc & Hrest).
      destruct (registerDomain_frame_all c (Action top) w0) as (Hconf & Hcl & _).
      rewrite Hc in Hconf, Hcl. simpl in Hconf, Hcl.
      destruct (IH w2 w1) as (Hk & -> & ->); [congruence|congruence|done|].
      split; [|done]. intros Hd. apply Hk.
      apply (registerDomain_keeps_kind _ _ _ _ _ _ Hdel Hexp Hc); [|done].
      intros response' _. rewrite Hc0, Hcl0, Hget. by intros [= <-]. }
  generalize (Nodes (RespNode top)) Hchild. clear Hchild Htop.
  intros nodes.
  assert (forall w0, conf w0 = conf w -> client w0 = client w -> child ∈ nodes ->
            forEach nodes (fun n => registerDomain n (Action top)) w0 = Ok tt w' ->
            kindOf <$> domains w' !! domainName = Some k) as Hmain; [|by apply Hmain].
  induction nodes as [|c l IH]; intros w0 Hc0 Hcl0 Hchild Hrun.
  - by apply elem_of_nil in Hchild.
  - apply forEach_cons in Hrun as (w1 & Hc & Hrest).
    destruct (registerDomain_frame_all c (Action top) w0) as (Hconf & Hcl & _).
    rewrite Hc in Hconf, Hcl. simpl in Hconf, Hcl.
    apply elem_of_cons in Hchild as [->|Hchild].
    + apply (Hkeeps l w1 w'); [congruence|congruence|done|].
      unfold k. rewrite <- Hc0.
      apply (registerDomain_registers _ _ _ _ _ _ Hdel Hexp Hc);
        by rewrite ?Hc0, ?Hcl0.
    + apply (IH w1); [congruence|congruence|done|done].
Qed.

(** *** The patterns of the settings *)

























(** *** Settings of a domain that is not registered *)



End Properties.

(** ** The registrars on concrete stores *)

Import Sample.

(** The initial load of the two subtrees, as in the scenarios of the
    specification. *)
Example initial_load_domains :
  loadPrefix "/domains" registerDomainS (fresh store1) = Ok tt (apiRegistered store1).
Proof. vm_compute. reflexivity. Qed.

Example initial_load_services :
  loadPrefix "/services" registerServiceS (fresh store1) = Ok tt (ordersRegistered store1).
Proof. vm_compute. reflexivity. Qed.

(** The decoders on keys of the schema. *)
Example decode_domain :
  getDomainForNode (leaf "/domains/api/config/timeout" "30") (fresh store1)
  = Ok "api" (fresh store1).
Proof. reflexivity. Qed.

Example decode_configuration :
  getDomainConfiguration (leaf "/domains/api/config/timeout/unit" "s") (fresh store1)
  = Ok ("timeout", "s") (fresh store1).
Proof. reflexivity. Qed.

Example decode_env :
  getEnvForNode (leaf "/services/orders/1/status/alive" "true") (fresh store1)
  = Ok "orders" (fresh store1) /\
  getEnvIndexForNode (leaf "/services/orders/1/status/alive" "true") (fresh store1)
  = Ok "1" (fresh store1).
Proof. split; reflexivity. Qed.

(** The groups are greedy: with two [config] segments in the key, the
    settings key is read after the last one. *)
Example decode_configuration_greedy :
  getDomainConfiguration (leaf "/domains/api/config/a/config/b" "v") (fresh store1)
  = Ok ("b", "v") (fresh store1).
Proof. reflexivity. Qed.

(** A settings key of a registered Domain is deleted: that entry goes,
    the rest stays. *)
Example delete_setting :
  registerDomainS (leaf "/domains/api/config/timeout" "") "delete" (apiWithSettings store1)
  = Ok tt (mkWatcher store1 cfg
             {["api" := {| typ := "service"; value := "orders";
                           config := Some {["retries" := "2"]} |}]} ∅ []).
Proof. vm_compute. reflexivity. Qed.

(** A leaf under a cluster is deleted while the subtree is still in the
    store: the whole cluster goes. *)
Example delete_leaf_removes_cluster :
  registerServiceS (leaf "/services/orders/1/status/alive" "") "delete"
    (ordersRegistered store1)
  = Ok tt (mkWatcher store1 cfg ∅ ∅
             [RegisteringService "orders" "10.0.0.5" 8080; RemovingService "orders"]).
Proof. vm_compute. reflexivity. Qed.


(** C5 at a concrete event: the root key of [orders] is gone from the
    store. *)
Lemma registerService_read_failure_witness :
  exists w',
    registerServiceS (dir "/services/orders" []) "set" (ordersRegistered storeEmpty)
    = Ok tt w' /\
    services w' = services (ordersRegistered storeEmpty) /\
    domains w' = domains (ordersRegistered storeEmpty) /\
    glog w' = glog (ordersRegistered storeEmpty) ++ [UnableToGetInformation "orders"].
Proof.
  apply (registerService_read_failure "" decodeConfig decodeLocation
           (ordersRegistered storeEmpty) (dir "/services/orders" []) "set" "orders");
    reflexivity.
Defined.


(** C7 as the registrar has it, at two concrete events: after the
    expiry of instance 2 the cluster holds instance 1 as built from the
    store. *)
Lemma cluster_after_events_witness :
  holds afterBoth "orders" service1 /\ "1" ∈ clusterIndices afterBoth "orders".
Proof.
  destruct (cluster_after_events "" decodeConfig decodeLocation
              [eventSet2] eventExpire2 (fresh storeEmpty) afterBoth "orders"
              (readOf (dir "/services/orders" [instance1])))
    as (wp & _ & _ & _ & Hidx & Hholds);
    [reflexivity|discriminate|reflexivity|reflexivity|].
  split.
  - apply (Hholds "1"); [|reflexivity].
    apply list_elem_of_In. vm_compute. left. reflexivity.
  - apply Hidx. right. split.
    + apply list_elem_of_In. vm_compute. left. reflexivity.
    + eexists. reflexivity.
Defined.

(** C7 as stated fails: after the two events the store holds instance 1
    alone, and the cluster still holds instance 2. *)
Lemma stale_instance_counterexample :
  handleEvents registerServiceS [eventSet2; eventExpire2] (fresh storeEmpty)
  = Ok tt afterBoth /\
  storeIndices (client afterBoth) (conf afterBoth) "orders" = ["1"] /\
  "2" ∈ clusterIndices afterBoth "orders" /\
  ~ mirrorsStore afterBoth "orders".
Proof.
  assert ("2" ∈ clusterIndices afterBoth "orders") as Hin.
  { change (clusterIndices afterBoth "orders")
      with (dom ({["1" := service1; "2" := service2]} : gmap string (Service string))).
    apply elem_of_dom. eexists. reflexivity. }
  split; [reflexivity|]. split; [reflexivity|]. split; [exact Hin|].
  intros Hmirror. apply Hmirror in Hin.
  change (storeIndices (client afterBoth) (conf afterBoth) "orders") with ["1"] in Hin.
  apply list_elem_of_In in Hin. destruct Hin as [Hin|[]]. discriminate Hin.
Qed.

(** C9 at concrete events: the put that registered [api], and the put
    that registered instance 1, delivered again. *)
Lemma redelivery_publishes_nothing_witness :
  (forall w2,
     registerDomainS (leaf "/domains/api/type" "service") "set" (apiRegistered store1)
     = Ok tt w2 -> w2 = apiRegistered store1) /\
  exists w2 extra,
    registerServiceS (leaf "/services/orders/1/location" "") "set" (ordersRegistered store1)
    = Ok tt w2 /\
    services w2 = services (ordersRegistered store1) /\
    glog w2 = glog (ordersRegistered store1) ++ extra /\
    Forall (fun l => isPublish l = false) extra.
Proof.
  split.
  - apply (proj1 (redelivery_publishes_nothing "" decodeConfig decodeLocation
                    (leaf "/domains/api/type" "service") "set"
                    (fresh store1) (apiRegistered store1))).
    reflexivity.
  - destruct (proj2 (redelivery_publishes_nothing "" decodeConfig decodeLocation
                       (leaf "/services/orders/1/location" "") "set"
                       (fresh store1) (ordersRegistered store1)) eq_refl)
      as (w2 & extra & Hrun & Hs & _ & Hlog & Hextra).
    exists w2, extra. repeat split; assumption.
Defined.

(** C10 at a concrete registry: taking an unknown domain out leaves
    [api] where it is. *)
Lemma removals_frame_witness :
  exists w',
    RemoveDomain "old" (apiRegistered store1) = Ok tt w' /\
    domains w' !! "api" = domains (apiRegistered store1) !! "api".
Proof.
  destruct (proj1 (removals_frame (apiRegistered store1)) "old")
    as (w' & Hrun & _ & _ & _ & Hother).
  exists w'. split; [exact Hrun|]. apply Hother. discriminate.
Defined.

(** *** Where the registrars leave the specification *)

(** C2.  The root key of [orders] has left the store and the delete
    event for it arrives: the read of the root key fails, the registrar
    logs the failure and the cluster stays registered. *)
Theorem delete_with_root_gone_keeps_cluster :
  registerServiceS (dir "/services/orders" []) "delete" (ordersRegistered storeEmpty)
  = Ok tt (addLog (UnableToGetInformation "orders") (ordersRegistered storeEmpty)) /\
  services (addLog (UnableToGetInformation "orders") (ordersRegistered storeEmpty))
    !! "orders" = Some {| instances := {["1" := service1]} |}.
Proof. split; reflexivity. Qed.

(** C3.  A settings key of a domain that is not registered is deleted,
    or expires: the registrar reads [.config] through the nil pointer
    that the registry returns, and panics. *)
Theorem delete_setting_of_absent_domain_panics :
  registerDomainS (leaf "/domains/api/config/timeout" "") "delete" (fresh storeSetting)
  = Panicked NilPointerDereference (fresh storeSetting) /\
  registerDomainS (leaf "/domains/api/config/timeout" "") "expire" (fresh storeSetting)
  = Panicked NilPointerDereference (fresh storeSetting).
Proof. split; reflexivity. Qed.

(** C4.  Domain [api] is registered and the key [config/timeout] is put
    under it: the read of the root key lists the directory [config],
    which passes [isDomainConfiguration] and on which
    [getDomainConfiguration] indexes an empty match. *)
Theorem put_setting_panics :
  registerDomainS (leaf "/domains/api/config/timeout" "30") "set"
    (apiRegistered storeSetting)
  = Panicked IndexOutOfRange (apiRegistered storeSetting).
Proof. reflexivity. Qed.

(** C8.  A key outside the schema, here the root of the subtree itself:
    the decoders panic, and [watch] hands the node to the registrar,
    which panics too. *)
Theorem decoders_panic_off_schema :
  getDomainForNode (dir "/domains" []) (fresh storeEmpty)
  = Panicked IndexOutOfRange (fresh storeEmpty) /\
  getEnvForNode (dir "/services" []) (fresh storeEmpty)
  = Panicked IndexOutOfRange (fresh storeEmpty) /\
  getEnvIndexForNode (dir "/services/orders" []) (fresh storeEmpty)
  = Panicked IndexOutOfRange (fresh storeEmpty) /\
  getDomainConfiguration (dir "/domains/api/config" []) (fresh storeEmpty)
  = Panicked IndexOutOfRange (fresh storeEmpty) /\
  watchResponse (Some (mkResponse "delete" (dir "/domains" []))) registerDomainS
    (apiRegistered storeEmpty)
  = Panicked IndexOutOfRange (apiRegistered storeEmpty).
Proof. repeat split; reflexivity. Qed.

(** *** The further properties on concrete stores *)



(** X5: an event for [orders] leaves the entry of [billing] alone, and
    an event for domain [web] leaves the kind and target of [api]. *)
Lemma registrars_touch_one_entity_witness :
  services (finalState (registerServiceS (leaf "/services/orders/1/location" "") "set"
                          (fresh store1))) !! "billing"
  = services (fresh store1) !! "billing" /\
  kindOf <$> domains (finalState (registerDomainS (leaf "/domains/web/type" "") "delete"
                                    (apiRegistered store1))) !! "api"
  = kindOf <$> domains (apiRegistered store1) !! "api".
Proof.
  split.
  - apply (proj1 (registrars_touch_one_entity "" decodeConfig decodeLocation
                    (leaf "/services/orders/1/location" "") "set" (fresh store1)
                    "billing")).
    vm_compute. discriminate.
  - apply (proj2 (registrars_touch_one_entity "" decodeConfig decodeLocation
                    (leaf "/domains/web/type" "") "delete" (apiRegistered store1) "api")).
    vm_compute. discriminate.
Defined.

(** X6: a [set] and an [update] are handled alike. *)
Lemma actions_only_tell_removal_witness :
  registerDomainS (leaf "/domains/api/type" "service") "set" (fresh store1)
  = registerDomainS (leaf "/domains/api/type" "service") "update" (fresh store1) /\
  registerServiceS (leaf "/services/orders/1/location" "") "set" (fresh store1)
  = registerServiceS (leaf "/services/orders/1/location" "") "expire" (fresh store1).
Proof.
  split.
  - apply (proj1 (proj2 (actions_only_tell_removal "" decodeConfig decodeLocation
                           (leaf "/domains/api/type" "service") "set" "update"
                           (fresh store1)))); discriminate.
  - apply (proj2 (proj2 (actions_only_tell_removal "" decodeConfig decodeLocation
                           (leaf "/services/orders/1/location" "") "set" "expire"
                           (fresh store1)))); discriminate.
Defined.

(** X7: a leaf of instance 1 is deleted while the instance is still in
    the store. *)
Lemma delete_removes_readable_cluster_witness :
  exists w',
    registerServiceS (leaf "/services/orders/1/status/alive" "") "delete"
      (ordersRegistered store1) = Ok tt w' /\
    services w' = delete "orders" (services (ordersRegistered store1)) /\
    domains w' = domains (ordersRegistered store1) /\
    glog w' = glog (ordersRegistered store1) ++ [RemovingService "orders"].
Proof.
  apply (delete_removes_readable_cluster "" decodeConfig decodeLocation
           (leaf "/services/orders/1/status/alive" "") (ordersRegistered store1) "orders"
           (readOf (dir "/services/orders" [instance1]))).
  - reflexivity.
  - reflexivity.
  - apply Forall_cons. split; [|apply Forall_nil_2]. exists "1". reflexivity.
  - apply Exists_cons_hd. exists "1". split; [reflexivity|]. eexists. reflexivity.
Defined.

(** X8: instance 2 is registered and no longer listed by the store; a
    put under instance 1 leaves its entry where it is. *)
Lemma unread_instances_keep_their_entry_witness :
  instanceAt (finalState (registerServiceS (leaf "/services/orders/1/location" "") "set"
                            afterBoth)) "orders" "2"
  = instanceAt afterBoth "orders" "2".
Proof.
  apply (unread_instances_keep_their_entry "" decodeConfig decodeLocation
           (leaf "/services/orders/1/location" "") "set" afterBoth).
  - discriminate.
  - reflexivity.
  - intros root n _ Hroot Hin Hi. exfalso.
    vm_compute in Hroot. injection Hroot as <-.
    apply list_elem_of_In in Hin. destruct Hin as [<-|[]].
    vm_compute in Hi. discriminate Hi.
Defined.

(** X9: the put that registered instance 1, delivered again, logs
    nothing and changes nothing. *)
Lemma silent_service_run_changes_nothing_witness :
  finalState (registerServiceS (leaf "/services/orders/1/location" "") "set"
                (ordersRegistered store1))
  = ordersRegistered store1.
Proof.
  apply (silent_service_run_changes_nothing "" decodeConfig decodeLocation
           (leaf "/services/orders/1/location" "") "set" (ordersRegistered store1)).
  - discriminate.
  - reflexivity.
  - reflexivity.
Defined.

(** X10: the put that registers [api]. *)
Lemma published_domain_has_no_settings_witness :
  exists domainName d,
    domains (apiRegistered store1) !! domainName = Some d /\ config d = None.
Proof.
  destruct (published_domain_has_no_settings (leaf "/domains/api/type" "service") "set"
              (fresh store1) (apiRegistered store1))
    as (domainName & d & _ & Hd & Hc & _).
  - discriminate.
  - discriminate.
  - reflexivity.
  - vm_compute. discriminate.
  - exists domainName, d. split; [exact Hd|exact Hc].
Defined.

(** X11 on instance 3 of [orders]. *)
Lemma built_service_identity_and_domain_witness :
  index (buildServiceS "orders" "3" "/services/orders/3" (readOf instance3)) = "3" /\
  domain (buildServiceS "orders" "3" "/services/orders/3" (readOf instance3)) = "api".
Proof.
  destruct (built_service_identity_and_domain "" decodeConfig decodeLocation
              "orders" "3" "/services/orders/3" (readOf instance3))
    as ((Hi & _ & _) & Hd & _).
  split; [exact Hi|].
  apply (Hd ltac:(apply (bool_decide_unpack _); vm_compute; exact I)
            (leaf "/services/orders/3/domain" "api")).
  - apply list_elem_of_In. left. reflexivity.
  - reflexivity.
Defined.

(** X12 on instance 1 of [orders], whose status has the leaf [alive]
    alone. *)
Lemma built_service_status_witness :
  exists st,
    status (buildServiceS "orders" "1" "/services/orders/1" (readOf instance1)) = Some st /\
    alive st = "true" /\ current st = "".
Proof.
  destruct (proj2 (built_service_status "" decodeConfig decodeLocation
                     "orders" "1" "/services/orders/1" (readOf instance1))
              ltac:(apply (bool_decide_unpack _); vm_compute; exact I)
              (dir "/services/orders/1/status"
                 [leaf "/services/orders/1/status/alive" "true"]))
    as (st & Hst & Hleaf & _ & Hcur & _).
  - apply list_elem_of_In. right. left. reflexivity.
  - reflexivity.
  - exists st. split; [exact Hst|]. split.
    + apply (Hleaf ltac:(apply (bool_decide_unpack _); vm_compute; exact I)
               (leaf "/services/orders/1/status/alive" "true")).
      * apply list_elem_of_In. left. reflexivity.
      * reflexivity.
    + apply Hcur. intros l Hl. apply list_elem_of_In in Hl. destruct Hl as [<-|[]].
      vm_compute. discriminate.
Defined.

(** X13 on an instance with a configuration blob. *)
Lemma built_service_config_witness :
  sconfig (buildServiceS "orders" "4" "/services/orders/4" (readOf instance4)) = "blob".
Proof.
  apply (proj2 (proj2 (built_service_config "" decodeConfig decodeLocation
                         "orders" "4" "/services/orders/4" (readOf instance4))
                  ltac:(apply (bool_decide_unpack _); vm_compute; exact I)
                  (dir "/services/orders/4/config"
                     [leaf "/services/orders/4/config/gogeta" "blob"])
                  ltac:(apply list_elem_of_In; left; reflexivity)
                  eq_refl)
           ltac:(apply (bool_decide_unpack _); vm_compute; exact I)
           (leaf "/services/orders/4/config/gogeta" "blob")).
  - apply list_elem_of_In. left. reflexivity.
  - reflexivity.
Defined.

(** X14 on the children of the root of [api]. *)
Lemma rebuilt_domain_from_leaves_witness :
  config apiDomain = None /\ typ apiDomain = "service" /\ value apiDomain = "orders".
Proof.
  destruct (rebuilt_domain_from_leaves "/domains/api" (Nodes apiTree) (fresh store1)
              apiDomain (fresh store1) eq_refl) as (Hc & Hleaf & _).
  split; [exact Hc|].
  pose proof (Hleaf ltac:(apply (bool_decide_unpack _); vm_compute; exact I)) as H.
  split.
  - apply (proj1 (H (leaf "/domains/api/type" "service")
                    ltac:(apply list_elem_of_In; left; reflexivity))).
    reflexivity.
  - apply (proj2 (H (leaf "/domains/api/value" "orders")
                    ltac:(apply list_elem_of_In; right; left; reflexivity))).
    reflexivity.
Defined.

(** X15: the initial load of [/services] registers instance 1 of
    [orders]. *)
Lemma initial_load_registers_instances_witness :
  holds (ordersRegistered store1) "orders" service1.
Proof.
  apply (initial_load_registers_instances "" decodeConfig decodeLocation
           "/services" (fresh store1) (ordersRegistered store1)
           (readOf (dir "/services" [dir "/services/orders" [instance1]]))
           (dir "/services/orders" [instance1]) "orders"
           (readOf (dir "/services/orders" [instance1])) instance1 "1" service1).
  - reflexivity.
  - reflexivity.
  - discriminate.
  - apply list_elem_of_In. left. reflexivity.
  - reflexivity.
  - reflexivity.
  - apply list_elem_of_In. left. reflexivity.
  - reflexivity.
  - reflexivity.
Defined.

(** X16: the initial load of [/domains] registers [api] with the kind
    and target of the store. *)
Lemma initial_load_registers_domains_witness :
  kindOf <$> domains (apiRegistered store1) !! "api" = Some ("service", "orders").
Proof.
  apply (initial_load_registers_domains "/domains" (fresh store1) (apiRegistered store1)
           (readOf (dir "/domains" [apiTree])) apiTree "api" (readOf (shallow apiTree))).
  - reflexivity.
  - reflexivity.
  - discriminate.
  - discriminate.
  - apply list_elem_of_In. left. reflexivity.
  - reflexivity.
  - reflexivity.
  - split; vm_compute; discriminate.
Defined.



